(** * The UFO sighting clean-up pipeline of [01-Introduction/ufo.py]

    A shallow embedding of the parse / validate / filter pipeline:
    [load_data], [fix_long_description], [transform_dates],
    [column_to_date], [transform_locations], [trim_indices] and [main],
    followed by the properties of the pipeline.

    Conventions.
    - A Python [str] is a [text]: the list of its Unicode code points.  A
      literal ["..."] stands for the text of its ASCII characters ([txt]).
    - [str.split], [str.strip], [str.join], slicing and [str(n)] are
      functions on code points (module [Py]); [str.strip] removes the
      characters [str.isspace] holds of, inside and outside ASCII.
    - [str.upper] and the decimal value of a character ([\d] of a regular
      expression, [int]) come from the Unicode database of the Python that
      runs the script: they are the two fields of the class [Unicode], and
      the pipeline is defined for any such database.  [AsciiLaws] says what
      every database does on ASCII characters; the examples inside the
      theorems rest on it, and the instances after the theorems run the
      pipeline with [ascii_unicode], which knows the ASCII characters only.
    - Row indices are [nat]: the index lists of the pipeline come from
      [range(len(..))].
    - The data dict is a [gmap string (list cell)]: column name to column.
    - A cell is a Python value: a [str], or the [{'city': .., 'state': ..}]
      dict that [transform_locations] stores.
    - A function that can raise returns [option] ([None]: an exception
      leaves the function); [load_data], which catches, returns the dict it
      had mutated so far together with the records it logged. *)

From Stdlib Require Import String Ascii DecimalString NArith.
From stdpp Require Import gmap strings list fin_maps.

Local Open Scope string_scope.
Local Open Scope nat_scope.
Local Open Scope list_scope.

(** ** Python text *)

(** A [str]: its code points, in order. *)
Abbreviation text := (list N).

(** The text of a literal. *)
Definition txt (s : string) : text := N_of_ascii <$> list_ascii_of_string s.

Coercion txt : string >-> list.

Module Py.

(** [c.isspace()] for a character [c]; these are the characters
    [str.strip()] removes: TAB LF VT FF CR, FS GS RS US, SPACE, NEL (U+0085),
    NO-BREAK SPACE (U+00A0), U+1680, U+2000 to U+200A, U+2028, U+2029,
    U+202F, U+205F and U+3000 (the set of CPython since 3.4). *)
Definition isspace (c : N) : bool :=
  ((9 <=? c) && (c <=? 13) || (28 <=? c) && (c <=? 32)
   || (c =? 0x85) || (c =? 0xA0) || (c =? 0x1680)
   || (0x2000 <=? c) && (c <=? 0x200A)
   || (c =? 0x2028) || (c =? 0x2029) || (c =? 0x202F) || (c =? 0x205F)
   || (c =? 0x3000))%N.

(** [s.lstrip()] *)
Fixpoint lstrip (s : text) : text :=
  match s with
  | [] => []
  | c :: r => if isspace c then lstrip r else s
  end.

(** [s.rstrip()] *)
Fixpoint rstrip (s : text) : text :=
  match s with
  | [] => []
  | c :: r =>
      match rstrip r with
      | [] => if isspace c then [] else [c]
      | r' => c :: r'
      end
  end.

(** [s.strip()] *)
Definition strip (s : text) : text := rstrip (lstrip s).

(** [s.split(sep)] for a one-character separator: every occurrence cuts,
    adjacent separators give empty parts, the result is never empty. *)
Fixpoint split (sep : N) (s : text) : list text :=
  match s with
  | [] => [[]]
  | c :: r =>
      if (c =? sep)%N then [] :: split sep r
      else match split sep r with
           | [] => [[c]]
           | w :: ws => (c :: w) :: ws
           end
  end.

(** [sep.join(parts)] *)
Fixpoint join (sep : text) (parts : list text) : text :=
  match parts with
  | [] => []
  | part :: rest =>
      match rest with
      | [] => part
      | _ => part ++ sep ++ join sep rest
      end
  end.

(** [s[:n]] *)
Definition slice_to (n : nat) (s : text) : text := take n s.

(** [str(n)] for a non-negative int *)
Definition str (n : nat) : text := txt (NilEmpty.string_of_uint (Nat.to_uint n)).

(** truthiness of a [str] *)
Definition truthy (s : text) : bool :=
  match s with [] => false | _ => true end.

(** [s.isascii()] *)
Definition isascii (s : text) : bool := forallb (λ c, (c <? 128)%N) s.

End Py.

(** ** The Unicode database *)

(** What the pipeline takes from the Unicode database of the running Python:
    [decimal c] is the value of the character [c] as a decimal digit
    ([unicodedata.decimal]; it is defined exactly on the characters that
    [\d] matches and [int] reads, whatever their script), and [upper s] is
    [s.upper()]. *)
Class Unicode : Type := {
  decimal : N → option nat;
  upper : text → text
}.

(** The decimal digits of ASCII. *)
Definition ascii_decimal (c : N) : option nat :=
  if ((48 <=? c) && (c <=? 57))%N then Some (N.to_nat (c - 48)) else None.

Definition ascii_upper_char (c : N) : N :=
  if ((97 <=? c) && (c <=? 122))%N then (c - 32)%N else c.

(** [s.upper()] for an ASCII text [s]. *)
Definition ascii_upper (s : text) : text := ascii_upper_char <$> s.

(** What every database does on ASCII: the characters [0] to [9] are the
    digits, and uppercasing an ASCII text maps [a] to [z] only. *)
Class AsciiLaws (U : Unicode) : Prop := {
  decimal_ascii : ∀ c, (c < 128)%N → decimal c = ascii_decimal c;
  upper_ascii : ∀ s, Py.isascii s = true → upper s = ascii_upper s
}.

(** The database cut down to ASCII: no decimal digit and no letter beyond
    it.  No Python has this database, but each agrees with it on ASCII text
    ([AsciiLaws]); it serves to evaluate the pipeline on ASCII inputs. *)
Definition ascii_unicode : Unicode :=
  {| decimal := ascii_decimal; upper := ascii_upper |}.

(** The ASCII characters and the Arabic-Indic digits, U+0660 to U+0669. *)
Definition ascii_or_arabic_digit (c : N) : bool :=
  ((c <? 128) || (0x660 <=? c) && (c <=? 0x669))%N.

(** A database that knows the Arabic-Indic digits besides ASCII. *)
Definition arabic_unicode : Unicode :=
  {| decimal := λ c, if ((0x660 <=? c) && (c <=? 0x669))%N
                     then Some (N.to_nat (c - 0x660))
                     else ascii_decimal c;
     upper := ascii_upper |}.

(** ** Data model *)

(** A cell of a column. *)
Inductive cell : Type :=
  | Str (s : text)
  | Loc (city state : text).

#[global] Instance cell_eq_dec : EqDecision cell.
Proof. solve_decision. Defined.

(** The data dict. *)
Abbreviation table := (gmap string (list cell)).

Definition OCCURRED : string := "date_occurred".
Definition REPORTED : string := "date_reported".
Definition LOCATION : string := "location".
Definition SHORT_DESCRIPTION : string := "short_description".
Definition DURATION : string := "duration".
Definition LONG_DESCRIPTION : string := "long_description".

Definition column_names : list string :=
  ["date_occurred"; "date_reported"; "location"; "short_description";
   "duration"; "long_description"].

(** All six columns are present and have [n] rows. *)
Definition aligned_at (n : nat) (data : table) : Prop :=
  ∀ key, key ∈ column_names → ∃ rows, data !! key = Some rows ∧ length rows = n.

Definition aligned (data : table) : Prop := ∃ n, aligned_at n data.

(** ** Row filter *)

(** [[item for index, item in enumerate(rows) if index not in indices]],
    with [enumerate] counting from [index]. *)
Fixpoint trim_from {A} (index : nat) (indices : list nat) (rows : list A) : list A :=
  match rows with
  | [] => []
  | item :: rest =>
      if bool_decide (index ∈ indices) then trim_from (S index) indices rest
      else item :: trim_from (S index) indices rest
  end.

Definition trim_rows {A} (indices : list nat) (rows : list A) : list A :=
  trim_from 0 indices rows.

(** [trim_indices]: every key of the dict is rebound to its filtered column.
    The loop visits the keys of the dict and assigns under the key it reads. *)
Definition trim_indices (data : table) (indices : list nat) : table :=
  map_fold (λ key rows acc, <[key := trim_rows indices rows]> acc) data data.

(** ** Date validation *)

(** [datetime.strptime(row, '%Y%m%d')] is library code.  The model follows
    CPython's [_strptime]: the format becomes the regular expression
    [(?P<Y>\d\d\d\d)(?P<m>1[0-2]|0[1-9]|[1-9])(?P<d>3[0-1]|[1-2]\d|0[1-9]|[1-9]| [1-9])],
    it is matched at the start of the text ([re.match], backtracking in
    priority order), text left after the match is an error, and the three
    groups, read by [int], must form a date that [datetime.date] accepts.
    In the expression [\d] is any character with a decimal value, while the
    classes written with digits are ranges of ASCII characters. *)
Module Strptime.

Inductive re : Type :=
  | Cls (p : N → bool)
  | Seq (a b : re)
  | Alt (a b : re).

(** All ways [r] matches a prefix of [s], as (matched text, rest), in the
    order a backtracking matcher tries them. *)
Fixpoint matches (r : re) (s : text) : list (text * text) :=
  match r with
  | Cls p =>
      match s with
      | c :: rest => if p c then [([c], rest)] else []
      | [] => []
      end
  | Seq a b =>
      m1 ← matches a s;
      m2 ← matches b m1.2;
      [(m1.1 ++ m2.1, m2.2)]
  | Alt a b => matches a s ++ matches b s
  end.

(** [ord(a)] *)
Definition ord (a : ascii) : N := N_of_ascii a.

Definition between (lo hi : ascii) : re :=
  Cls (λ c, (ord lo <=? c)%N && (c <=? ord hi)%N).
Definition chr (a : ascii) : re := Cls (N.eqb (ord a)).

(** [1[0-2]|0[1-9]|[1-9]] *)
Definition re_m : re :=
  Alt (Seq (chr "1") (between "0" "2"))
      (Alt (Seq (chr "0") (between "1" "9")) (between "1" "9")).

Definition is_leap (year : nat) : bool :=
  (year mod 4 =? 0)%nat && (negb (year mod 100 =? 0)%nat || (year mod 400 =? 0)%nat).

Definition days_in_month (year month : nat) : nat :=
  match month with
  | 2 => if is_leap year then 29 else 28
  | 4 | 6 | 9 | 11 => 30
  | _ => 31
  end.

(** [datetime.date(year, month, day)] does not raise. *)
Definition date_ok (year month day : nat) : bool :=
  (1 <=? year)%nat && (year <=? 9999)%nat &&
  (1 <=? month)%nat && (month <=? 12)%nat &&
  (1 <=? day)%nat && (day <=? days_in_month year month)%nat.

(** Two expressions of the same shape whose character classes agree on the
    characters [p] holds of. *)
Inductive re_agree (p : N → bool) : re → re → Prop :=
  | agree_Cls f g : (∀ c, p c = true → f c = g c) → re_agree p (Cls f) (Cls g)
  | agree_Seq a a' b b' :
      re_agree p a a' → re_agree p b b' → re_agree p (Seq a b) (Seq a' b')
  | agree_Alt a a' b b' :
      re_agree p a a' → re_agree p b b' → re_agree p (Alt a b) (Alt a' b').

Section database.
Context {U : Unicode}.

(** [c.isdecimal()]: what [\d] matches. *)
Definition isdecimal (c : N) : bool :=
  match decimal c with Some _ => true | None => false end.

Definition digit : re := Cls isdecimal.

(** [\d\d\d\d] *)
Definition re_Y : re := Seq digit (Seq digit (Seq digit digit)).

(** [3[0-1]|[1-2]\d|0[1-9]|[1-9]| [1-9]] *)
Definition re_d : re :=
  Alt (Seq (chr "3") (between "0" "1"))
      (Alt (Seq (between "1" "2") digit)
           (Alt (Seq (chr "0") (between "1" "9"))
                (Alt (between "1" "9") (Seq (chr " ") (between "1" "9"))))).

(** The groups of every match of the whole expression, in priority order. *)
Definition format_matches (s : text) : list (text * text * text * text) :=
  y ← matches re_Y s;
  m ← matches re_m y.2;
  d ← matches re_d m.2;
  [(y.1, m.1, d.1, d.2)].

(** The number a text of decimal digits writes; [None] when a character has
    no decimal value. *)
Fixpoint digits_value (acc : nat) (s : text) : option nat :=
  match s with
  | [] => Some acc
  | c :: r =>
      match decimal c with
      | Some d => digits_value (10 * acc + d) r
      | None => None
      end
  end.

(** [int(s)] on the text of a group, which holds decimal digits with at
    most a blank before them: surrounding blanks are ignored, and [None] is
    the [ValueError] of a text with no digit or with another character. *)
Definition int (s : text) : option nat :=
  match Py.strip s with
  | [] => None
  | digits => digits_value 0 digits
  end.

(** [Some (year, month, day)] when [strptime] returns, [None] when it
    raises [ValueError]. *)
Definition strptime (s : text) : option (nat * nat * nat) :=
  match format_matches s with
  | [] => None
  | (y, m, d, rest) :: _ =>
      match rest, int y, int m, int d with
      | [], Some year, Some month, Some day =>
          if date_ok year month day then Some (year, month, day) else None
      | _, _, _, _ => None
      end
  end.

End database.

End Strptime.

Section pipeline.
Context {U : Unicode}.

(** The [try] body of [column_to_date] on one cell: [Some year_text] when
    the body completes, [None] when it raises (a [ValueError] of
    [strptime], or its [TypeError] on a cell that is not a [str]); the bare
    [except] catches both. *)
Definition try_date (row : cell) : option cell :=
  match row with
  | Str s =>
      match Strptime.strptime s with
      | Some _ => Some (Str (Py.slice_to 4 s))
      | None => None
      end
  | Loc _ _ => None
  end.

(** One turn of the loop of [column_to_date]; [col !! i] is [col[i]] for
    [i] in [range(len(col))]. *)
Definition column_to_date_step (col : list cell)
    (st : list cell * list nat) (i : nat) : list cell * list nat :=
  let '(transformed, bad_indices) := st in
  match col !! i with
  | Some row =>
      match try_date row with
      | Some year => (transformed ++ [year], bad_indices)
      | None => (transformed, bad_indices ++ [i])
      end
  | None => st
  end.

Definition column_to_date (col : list cell) : list cell * list nat :=
  foldl (column_to_date_step col) ([], []) (seq 0 (length col)).

(** [transform_dates]; [data[OCCURRED]] raises [KeyError] on a dict without
    the column. *)
Definition transform_dates (data : table) : option (table * list nat) :=
  occurred ← data !! OCCURRED;
  reported ← data !! REPORTED;
  let '(occurred_transformed, occurred_bad_indices) := column_to_date occurred in
  let '(reported_transformed, reported_bad_indices) := column_to_date reported in
  let bad_indices := ([] ++ occurred_bad_indices) ++ reported_bad_indices in
  Some (<[REPORTED := reported_transformed]> (<[OCCURRED := occurred_transformed]> data),
        bad_indices).

(** ** Location validation *)

Definition states : list text :=
  txt <$>
  ["AK"; "AL"; "AR"; "AZ"; "CA"; "CO"; "CT"; "DE"; "FL"; "GA"; "HI"; "IA"; "ID";
   "IL"; "IN"; "KS"; "KY"; "LA"; "MA"; "MD"; "ME"; "MI"; "MN"; "MO"; "MS"; "MT";
   "NC"; "ND"; "NE"; "NH"; "NJ"; "NM"; "NV"; "NY"; "OH"; "OK"; "OR"; "PA"; "RI";
   "SC"; "SD"; "TN"; "TX"; "UT"; "VA"; "VT"; "WA"; "WI"; "WV"; "WY"].

(** [','] and ['\t'], ['\n'] *)
Definition COMMA : N := 44.
Definition TAB : N := 9.
Definition NEWLINE : N := 10.

(** The [if]/[elif] of the loop body: is the row flagged?  [None] is the
    [IndexError] of [split[1]]. *)
Definition location_flagged (split : list text) : option bool :=
  if bool_decide (length split ≠ 2) then Some true
  else
    second ← split !! 1;
    Some (bool_decide (Py.strip (upper second) ∉ states)).

(** The second [if]/[else] of the loop body: the value stored for the row. *)
Definition location_value (split : list text) : option cell :=
  if bool_decide (length split = 1) then first ← split !! 0; Some (Str first)
  else
    city ← split !! 0;
    state ← split !! 1;
    Some (Loc city state).

(** One turn of the loop of [transform_locations]; [row.split] raises on a
    cell that is not a [str]. *)
Definition transform_locations_step (locations : list cell)
    (st : list nat * list cell) (i : nat) : option (list nat * list cell) :=
  let '(bad_indices, transformed_locations) := st in
  match locations !! i with
  | Some (Str row) =>
      let split := Py.split COMMA row in
      match location_flagged split, location_value split with
      | Some flagged, Some value =>
          Some (if flagged : bool then bad_indices ++ [i] else bad_indices,
                transformed_locations ++ [value])
      | _, _ => None
      end
  | _ => None
  end.

(** [transform_locations]; [data.get(LOCATION)] is [None] on a dict without
    the column and [len(None)] raises. *)
Definition transform_locations (data : table) : option (table * list nat) :=
  locations ← data !! LOCATION;
  '(bad_indices, transformed_locations) ←
    foldl (λ st i, st ≫= λ st, transform_locations_step locations st i)
          (Some ([], [])) (seq 0 (length locations));
  Some (<[LOCATION := transformed_locations]> data, bad_indices).

(** ** Line parser and loader *)

(** The exceptions the loader can meet. *)
Inductive exn : Type := IndexError | KeyError.

(** What a call of [log.error] is given. *)
Inductive log_arg : Type :=
  | Text (s : text)
  | ExcType (e : exn)
  | ExcValue (e : exn)
  | PyNone.

Inductive log_record : Type := LogError (a : log_arg).

(** [fix_long_description]: the tokens from [last_column] on ([drop]: the
    [range(last_column, len(split_line))] loop), stripped, the empty ones
    left out, joined by two blanks, stored at [last_column]; the list is then
    cut after [last_column].  [split_line[last_column] = ..] raises
    [IndexError] on a list that short. *)
Definition fix_long_description (split_line : list text) : option (list text) :=
  let last_column := length column_names - 1 in
  let stragglers := drop last_column split_line in
  let stragglers :=
    Py.strip <$> filter (λ item, Py.truthy (Py.strip item) = true) stragglers in
  let stragglers := Py.join "  " stragglers in
  if decide (last_column < length split_line)
  then Some (take (last_column + 1) (<[last_column := stragglers]> split_line))
  else None.

(** The inner loop of [load_data] over the column positions:
    [data[key].append(split_line[i])].  The dict keeps what was appended
    before an exception. *)
Fixpoint load_fields (split_line : list text) (positions : list nat) (data : table)
    : table * option exn :=
  match positions with
  | [] => (data, None)
  | i :: rest =>
      match column_names !! i with
      | None => (data, Some IndexError)
      | Some key =>
          match split_line !! i with
          | None => (data, Some IndexError)
          | Some val =>
              match data !! key with
              | None => (data, Some KeyError)
              | Some rows =>
                  load_fields split_line rest (<[key := rows ++ [Str val]]> data)
              end
          end
      end
  end.

(** The body of the [for line in lines] loop on one line. *)
Definition load_line (line : text) (data : table) : table * option exn :=
  let split_line := Py.split TAB line in
  let fixed :=
    if decide (length column_names < length split_line)
    then fix_long_description split_line
    else Some split_line in
  match fixed with
  | None => (data, Some IndexError)
  | Some split_line => load_fields split_line (seq 0 (length column_names)) data
  end.

(** The [for line in lines] loop inside the [try]: the dict, [line_num] and
    the exception that ended the loop, if one did. *)
Fixpoint load_lines (lines : list text) (line_num : nat) (data : table)
    : table * nat * option exn :=
  match lines with
  | [] => (data, line_num, None)
  | line :: rest =>
      match load_line line data with
      | (data, Some e) => (data, line_num, Some e)
      | (data, None) => load_lines rest (S line_num) data
      end
  end.

(** [err_printer] *)
Definition err_printer (e : exn) : list log_record :=
  [LogError (ExcType e); LogError (ExcValue e); LogError PyNone].

(** The dict of empty columns [load_data] starts from. *)
Definition empty_table : table :=
  foldl (λ data name, <[name := []]> data) ∅ column_names.

(** [load_data] on the lines [f.readlines()] gave: the dict it returns and
    the records it logged. *)
Definition load_data (lines : list text) : table * list log_record :=
  let '(data, line_num, raised) := load_lines lines 0 empty_table in
  (data,
   match raised with
   | Some e =>
       LogError (Text ("Found error on line number " ++ Py.str line_num))
         :: err_printer e
   | None => []
   end).

(** ** The clean-up of [main] *)

(** The two validate-then-filter stages of [main], in its order. *)
Definition clean (data : table) : option table :=
  '(data, bad_date_indices) ← transform_dates data;
  let data := trim_indices data bad_date_indices in
  '(data, bad_location_indices) ← transform_locations data;
  Some (trim_indices data bad_location_indices).

Definition tabbed (fields : list text) : text := Py.join [TAB] fields.
Definition ln (s : text) : text := s ++ [NEWLINE].

(** ** Auxiliary notions used in the statements *)

(** The indices, counted from [n], of the elements of [l] that [bad] holds of. *)
Fixpoint flagged_from {A} (bad : A → bool) (n : nat) (l : list A) : list nat :=
  match l with
  | [] => []
  | x :: r => if bad x then n :: flagged_from bad (S n) r else flagged_from bad (S n) r
  end.

(** How many positions below [i] are not in [indices]: where the element of
    position [i] stands once the positions in [indices] are removed. *)
Definition kept_before (indices : list nat) (i : nat) : nat :=
  length (filter (λ k, k ∉ indices) (seq 0 i)).

(** How many positions of a column of [n] rows are in [indices]. *)
Definition flagged_count (indices : list nat) (n : nat) : nat :=
  length (filter (λ i, i < n) (remove_dups indices)).

(** ** Closed forms of the loops, and sample inputs *)

(** Whether the date loop flags a cell. *)
Definition date_bad (row : cell) : bool :=
  match try_date row with Some _ => false | None => true end.

(** Whether the location loop flags a row. *)
Definition row_flagged (row : text) : bool :=
  match Py.split COMMA row with
  | [_; second] => bool_decide (Py.strip (upper second) ∉ states)
  | _ => true
  end.

(** The value the location loop stores for a row. *)
Definition row_value (row : text) : cell :=
  match Py.split COMMA row with
  | [single] => Str single
  | city :: state :: _ => Loc city state
  | [] => Str row
  end.

(** A small table used to instantiate the statements. *)
Definition sample_rows : table :=
  {[ "location" := [Str "Ithaca, NY"; Str "Ithaca"; Str "Paris, France"];
     "duration" := [Str "1 min"; Str "2 min"; Str "3 min"] ]}.

(** Locations with two, two, one and three comma-separated parts. *)
Definition sample_locations : table :=
  {[ "location" := [Str "Ithaca, NY"; Str "Ithaca, Ontario"; Str "Ithaca";
                    Str "Springfield, IL, USA"] ]}.

(** Two sightings, the first with an occurrence date not in the format. *)
Definition sample_dates : table :=
  {[ "date_occurred" := [Str "1987-06-04"; Str "19870604"];
     "date_reported" := [Str "19870605"; Str "19870606"];
     "location" := [Str "Ithaca, NY"; Str "Ithaca, NY"] ]}.

(** One sighting whose occurrence date is not in the format. *)
Definition misdated_row : table :=
  {[ "date_occurred" := [Str "1987-06-04"];
     "date_reported" := [Str "19870610"];
     "location" := [Str "Ithaca, NY"];
     "short_description" := [Str "lights"];
     "duration" := [Str "1 min"];
     "long_description" := [Str "lights in the sky"] ]}.

(** All six columns are in the dict. *)
Definition columns_present (data : table) : Prop :=
  ∀ key, key ∈ column_names → is_Some (data !! key).

(** The values one accepted line contributes, one per column: the tokens,
    with those from the sixth on stripped, the empty ones left out, and the
    rest joined by two blanks, when there are more than six. *)
Definition fields_of (line : text) : list text :=
  let tokens := Py.split TAB line in
  if decide (length column_names < length tokens)
  then take 5 tokens
       ++ [Py.join "  " (filter (λ t, t ≠ []) (Py.strip <$> drop 5 tokens))]
  else tokens.

(** What the inner loop, started at column [k], appends to column [j]. *)
Definition appended (k : nat) (split_line : list text) (j : nat) : list cell :=
  if decide (k ≤ j)
  then match split_line !! j with Some val => [Str val] | None => [] end
  else [].

(** The values the lines contribute to column [j]. *)
Definition column_of (j : nat) (lines : list text) : list text :=
  omap (λ line, fields_of line !! j) lines.

(** A line the parser accepts: it has a token for every column. *)
Definition accepted_line (line : text) : Prop :=
  length column_names ≤ length (Py.split TAB line).

(** A sighting whose long description holds two tabs. *)
Definition tabbed_sighting : text :=
  ln (tabbed (txt <$> ["19870604"; "19870610"; "Ithaca, NY"; "lights"; "1 min";
                       "lights in the sky"; "very bright"; "moving slowly"])).

(** A sighting whose long description is cut by tabs into [f], a lone
    no-break space, and [g] followed by a NEL character. *)
Definition blank_sighting : text :=
  tabbed [txt "19870604"; txt "19870610"; txt "Ithaca, NY"; txt "lights";
          txt "1 min"; txt "f"; [0xA0%N]; "g" ++ [0x85%N]].

(** A line with two tokens only. *)
Definition short_line : text := ln (tabbed (txt <$> ["19870604"; "19870610"])).

(** Four accepted lines, the short line, five more lines. *)
Definition file_with_short_line : list text :=
  replicate 4 tabbed_sighting ++ short_line :: replicate 5 tabbed_sighting.

(** Every column is present and holds strings only: the tables [load_data]
    builds. *)
Definition raw_table (data : table) : Prop :=
  ∀ key, key ∈ column_names → ∃ vals : list text, data !! key = Some (Str <$> vals).

(** The same clean-up with one filter pass: both index lists are computed
    on the table before any row is removed, and their union is removed at
    once. *)
Definition clean_single_pass (data : table) : option table :=
  '(data, bad_date_indices) ← transform_dates data;
  '(data, bad_location_indices) ← transform_locations data;
  Some (trim_indices data (bad_date_indices ++ bad_location_indices)).

(** Three sightings: the first has a bad date, the second a bad location. *)
Definition two_flagged_rows : table :=
  {[ "date_occurred" := [Str "1987-06-04"; Str "19870605"; Str "19870606"];
     "date_reported" := [Str "19870610"; Str "19870611"; Str "19870612"];
     "location" := [Str "Ithaca, NY"; Str "Ithaca"; Str "Austin, TX"];
     "short_description" := [Str "first"; Str "second"; Str "third"];
     "duration" := [Str "1 min"; Str "2 min"; Str "3 min"];
     "long_description" := [Str "one"; Str "two"; Str "three"] ]}.

(** ** Reporting and [main] *)

(** A trace handed to [plot]: [Scatter(x=.., y=.., mode=..)] or
    [Histogram(x=..)]. *)
Inductive trace : Type :=
  | Scatter (x : list nat) (y : list cell) (mode : text)
  | Histogram (x : list cell).

(** [graph_scatter]: the list of traces it hands to [plot]; [data[OCCURRED]]
    raises [KeyError] on a dict without the column. *)
Definition graph_scatter (data : table) : option (list trace) :=
  occurred ← data !! OCCURRED;
  Some [Scatter (seq 0 (length occurred)) occurred "markers"].

(** [graph_histogram] *)
Definition graph_histogram (data : table) : option (list trace) :=
  occurred ← data !! OCCURRED;
  Some [Histogram occurred].

(** [graph_occurrences] returns at once: the calls of [plot] it makes. *)
Definition graph_occurrences (data : table) : list (list trace) := [].

(** What [main] logs: the records of [load_data], and its own [log.info]. *)
Inductive main_record : Type :=
  | Loader (r : log_record)
  | Info (msg : text).

Definition indices_to_remove (indices : list nat) : main_record :=
  Info ("There are " ++ Py.str (length indices) ++ " indices to remove").

(** [main] on the lines of the input file: the records logged, and the calls
    of [plot] in order ([None] when an exception leaves [main]; the records
    logged before it stay). *)
Definition main (lines : list text) : list main_record * option (list (list trace)) :=
  let '(data, loader_log) := load_data lines in
  let log := (Loader <$> loader_log) ++ [Info "transforming dates"] in
  match transform_dates data with
  | None => (log, None)
  | Some (data, bad_date_indices) =>
      let log := log ++ [Info "trimming bad dates"; indices_to_remove bad_date_indices] in
      let data := trim_indices data bad_date_indices in
      let log := log ++ [Info "transforming locations"] in
      match transform_locations data with
      | None => (log, None)
      | Some (data, bad_location_indices) =>
          let log := log ++ [Info "trimming bad locations";
                             indices_to_remove bad_location_indices] in
          let data := trim_indices data bad_location_indices in
          let log := log ++ [Info (ln "Done with cleanup")] in
          match graph_scatter data with
          | None => (log, None)
          | Some scatter =>
              match graph_histogram data with
              | None => (log, None)
              | Some histogram =>
                  (log, Some ([scatter; histogram] ++ graph_occurrences data))
              end
          end
      end
  end.

(** ** Notions used in the further properties *)

(** A text of four decimal digits, of whatever script, that does not write
    the number 0: what [strptime] accepts as [%Y] and [datetime.date] as a
    year. *)
Definition is_year (c : cell) : bool :=
  match c with
  | Str ([c1; c2; c3; c4] as s) =>
      Strptime.isdecimal c1 && Strptime.isdecimal c2
      && Strptime.isdecimal c3 && Strptime.isdecimal c4
      && match Strptime.int s with Some year => 1 <=? year | None => false end
  | _ => false
  end.

(** A city/state record whose state, uppercased and stripped, is one of the
    fifty abbreviations. *)
Definition is_us_location (c : cell) : bool :=
  match c with
  | Loc city state => bool_decide (Py.strip (upper state) ∈ states)
  | Str _ => false
  end.

(** The text holds no [sep]. *)
Definition free_of (sep : N) (s : text) : bool :=
  forallb (λ c, negb (c =? sep)%N) s.

(** A row a writer would put on one line: six fields without a tab. *)
Definition plain_row (fields : list text) : Prop :=
  length fields = length column_names ∧ Forall (λ f, free_of TAB f = true) fields.

(** Three rows of six tab-free fields. *)
Definition sample_plain_rows : list (list text) :=
  [[txt "19870604"; txt "19870610"; txt "Ithaca, NY"; txt "lights"; txt "1 min";
    ln "lights in the sky"];
   [txt "1987-06-04"; txt "19870611"; txt "Ithaca"; []; txt "2 min";
    ln "  a disc "];
   [txt "19990101"; txt "19990102"; txt "Austin, TX"; txt "orb"; [];
    txt "no line break"]].

(** [two_flagged_rows] with three occurrence dates that are all accepted. *)
Definition valid_dates_rows : table :=
  <[OCCURRED := [Str "19870604"; Str "19870605"; Str "19870606"]]> two_flagged_rows.

(** Every column is present and holds strings without a tab. *)
Definition tab_free_table (data : table) : Prop :=
  ∀ key, key ∈ column_names →
    ∃ vals : list text,
      data !! key = Some (Str <$> vals) ∧ Forall (λ v, free_of TAB v = true) vals.

(** Whether [p] holds of every character in a cell. *)
Definition cell_all (p : N → bool) (c : cell) : bool :=
  match c with
  | Str s => forallb p s
  | Loc city state => forallb p city && forallb p state
  end.

(** Whether a cell holds ASCII text only. *)
Definition ascii_cell (c : cell) : bool := cell_all (λ c, (c <? 128)%N) c.

End pipeline.

(** Case analysis on which of the six columns a key is. *)
Ltac each_column Hkey :=
  unfold column_names in Hkey;
  repeat (apply elem_of_cons in Hkey as [->|Hkey]);
  [..|by apply elem_of_nil in Hkey].

(** * Properties *)

Section properties.
Context {U : Unicode} {L : AsciiLaws U}.

(** ** The row filter *)

Section trim.
Context {A : Type}.
Implicit Types (rows : list A) (indices : list nat).

Lemma trim_from_ext indices1 indices2 rows n :
  (∀ i, i ∈ indices1 ↔ i ∈ indices2) →
  trim_from n indices1 rows = trim_from n indices2 rows.
Proof.
  intros Hset. revert n. induction rows as [|x rows IH]; intros n; cbn [trim_from]; [done|].
  rewrite (bool_decide_ext _ _ (Hset n)), !IH. done.
Qed.

Lemma trim_from_nil rows n : trim_from n [] rows = rows.
Proof.
  revert n. induction rows as [|x rows IH]; intros n; cbn [trim_from]; [done|].
  rewrite bool_decide_eq_false_2 by apply not_elem_of_nil. by rewrite IH.
Qed.

Lemma trim_from_sublist indices rows n : sublist (trim_from n indices rows) rows.
Proof.
  revert n. induction rows as [|x rows IH]; intros n; cbn [trim_from]; [constructor|].
  case_bool_decide; [apply sublist_cons | apply sublist_skip]; apply IH.
Qed.

Lemma trim_from_length indices rows n :
  length (trim_from n indices rows)
  + length (filter (λ i, i ∈ indices) (seq n (length rows))) = length rows.
Proof.
  revert n. induction rows as [|x rows IH]; intros n; cbn [trim_from]; [done|].
  specialize (IH (S n)). cbn [length seq].
  rewrite filter_cons. case_bool_decide as Hn.
  - rewrite decide_True by done. simpl. lia.
  - rewrite decide_False by done. simpl. lia.
Qed.

Lemma flagged_count_seq indices n :
  length (filter (λ i, i ∈ indices) (seq 0 n)) = flagged_count indices n.
Proof.
  unfold flagged_count. apply Permutation_length, NoDup_Permutation.
  - apply NoDup_filter, NoDup_seq.
  - apply NoDup_filter, NoDup_remove_dups.
  - intros i. rewrite !list_elem_of_filter, elem_of_seq, elem_of_remove_dups. intuition lia.
Qed.

Lemma trim_rows_length indices rows :
  length (trim_rows indices rows) = length rows - flagged_count indices (length rows).
Proof.
  pose proof (trim_from_length indices rows 0) as H.
  rewrite flagged_count_seq in H. unfold trim_rows. lia.
Qed.

Lemma kept_before_S indices i :
  kept_before indices (S i)
  = kept_before indices i + (if bool_decide (i ∈ indices) then 0 else 1).
Proof.
  unfold kept_before. rewrite seq_S, filter_app, length_app. simpl. f_equal.
  rewrite filter_cons, filter_nil.
  case_bool_decide; [rewrite decide_False by tauto | rewrite decide_True by done]; done.
Qed.

Lemma kept_before_mono indices i j : i ≤ j → kept_before indices i ≤ kept_before indices j.
Proof.
  induction 1 as [|j _ IH]; [done|]. rewrite kept_before_S. lia.
Qed.

(** The element of an unflagged position [i] is found at [kept_before i]. *)
Lemma trim_from_lookup indices rows n i :
  n ≤ i → i ∉ indices →
  trim_from n indices rows !! (kept_before indices i - kept_before indices n)
  = rows !! (i - n).
Proof.
  revert n. induction rows as [|x rows IH]; intros n Hle Hi; cbn [trim_from]; [done|].
  destruct (decide (i = n)) as [->|Hne].
  - rewrite bool_decide_eq_false_2 by done. by rewrite !Nat.sub_diag.
  - pose proof (kept_before_S indices n) as HS.
    pose proof (kept_before_mono indices (S n) i ltac:(lia)) as Hm.
    specialize (IH (S n) ltac:(lia) Hi).
    replace (i - n) with (S (i - S n)) by lia. simpl. rewrite <-IH.
    case_bool_decide.
    + f_equal. lia.
    + replace (kept_before indices i - kept_before indices n)
        with (S (kept_before indices i - kept_before indices (S n))) by lia.
      done.
Qed.

Lemma trim_rows_lookup indices rows i :
  i ∉ indices → trim_rows indices rows !! kept_before indices i = rows !! i.
Proof.
  intros Hi. pose proof (trim_from_lookup indices rows 0 i ltac:(lia) Hi) as H.
  unfold kept_before at 2 in H. simpl in H. by rewrite !Nat.sub_0_r in H.
Qed.

(** Two passes, the second with indices into the output of the first, are
    one pass with the second index list read in the numbering of the
    input. *)
Lemma trim_from_twice indices1 indices2 indices0 rows n :
  (∀ i, i ∉ indices1 → kept_before indices1 i ∈ indices2 ↔ i ∈ indices0) →
  trim_from (kept_before indices1 n) indices2 (trim_from n indices1 rows)
  = trim_from n (indices1 ++ indices0) rows.
Proof.
  intros Hshift. revert n. induction rows as [|x rows IH]; intros n; cbn [trim_from]; [done|].
  specialize (IH (S n)). rewrite kept_before_S in IH.
  destruct (decide (n ∈ indices1)) as [Hn|Hn].
  - rewrite (bool_decide_eq_true_2 (n ∈ indices1)) in IH |- * by done.
    rewrite (bool_decide_eq_true_2 (n ∈ indices1 ++ indices0))
      by (apply elem_of_app; by left).
    rewrite Nat.add_0_r in IH. done.
  - rewrite (bool_decide_eq_false_2 (n ∈ indices1)) in IH |- * by done.
    cbn [trim_from]. rewrite Nat.add_1_r in IH. rewrite IH.
    pose proof (Hshift n Hn) as Hiff.
    rewrite (bool_decide_ext _ (n ∈ indices1 ++ indices0)); [done|].
    rewrite elem_of_app. tauto.
Qed.

Lemma trim_rows_twice indices1 indices2 indices0 rows :
  (∀ i, i ∉ indices1 → kept_before indices1 i ∈ indices2 ↔ i ∈ indices0) →
  trim_rows indices2 (trim_rows indices1 rows) = trim_rows (indices1 ++ indices0) rows.
Proof. intros H. apply (trim_from_twice _ _ _ _ 0 H). Qed.

End trim.

Lemma trim_from_fmap {A B} (f : A → B) indices rows n :
  trim_from n indices (f <$> rows) = f <$> trim_from n indices rows.
Proof.
  revert n. induction rows as [|x rows IH]; intros n; [done|].
  rewrite fmap_cons. cbn [trim_from]. rewrite IH. by case_bool_decide.
Qed.

(** The loop of [trim_indices] rebinds every column to its filtered rows. *)
Lemma trim_indices_fmap (data : table) indices :
  trim_indices data indices = trim_rows indices <$> data.
Proof.
  unfold trim_indices.
  assert (∀ base : table,
    map_fold (λ key rows acc, <[key := trim_rows indices rows]> acc) base data
    = (trim_rows indices <$> data) ∪ base) as Hfold.
  { intros base.
    apply (map_fold_weak_ind
      (λ r (m : table), r = (trim_rows indices <$> m) ∪ base)).
    - by rewrite fmap_empty, (left_id_L ∅ (∪)).
    - intros key rows m r _ ->. by rewrite fmap_insert, insert_union_l. }
  rewrite Hfold. apply map_eq. intros key.
  rewrite lookup_union, lookup_fmap. by destruct (data !! key).
Qed.

Lemma trim_indices_lookup (data : table) indices key :
  trim_indices data indices !! key = trim_rows indices <$> data !! key.
Proof. by rewrite trim_indices_fmap, lookup_fmap. Qed.

(** ** Flagged indices *)

Lemma elem_of_flagged_from {A} (bad : A → bool) (l : list A) n i :
  i ∈ flagged_from bad n l ↔ n ≤ i ∧ ∃ x, l !! (i - n) = Some x ∧ bad x = true.
Proof.
  revert n. induction l as [|x l IH]; intros n; cbn [flagged_from].
  - rewrite elem_of_nil. split; [done|]. by intros (_ & y & Hy & _).
  - assert (i ∈ flagged_from bad (S n) l ↔
            n ≤ i ∧ i ≠ n ∧ ∃ y, (x :: l) !! (i - n) = Some y ∧ bad y = true) as Htail.
    { rewrite IH. split.
      - intros (Hle & y & Hy & Hbad). split_and!; [lia..|].
        exists y. replace (i - n) with (S (i - S n)) by lia. done.
      - intros (Hle & Hne & y & Hy & Hbad). split; [lia|].
        exists y. replace (i - n) with (S (i - S n)) in Hy by lia. done. }
    destruct (bad x) eqn:Hx.
    + rewrite elem_of_cons, Htail. split.
      * intros [->|(Hle & _ & Hy)]; [|done].
        split; [done|]. exists x. by rewrite Nat.sub_diag.
      * intros (Hle & Hy). destruct (decide (i = n)); [by left | by right].
    + rewrite Htail. split; [by intros (Hle & _ & Hy)|].
      intros (Hle & y & Hy & Hbad). split_and!; [done| |by exists y].
      intros ->. rewrite Nat.sub_diag in Hy. simpl in Hy. congruence.
Qed.

Lemma elem_of_flagged {A} (bad : A → bool) (l : list A) i :
  i ∈ flagged_from bad 0 l ↔ ∃ x, l !! i = Some x ∧ bad x = true.
Proof. rewrite elem_of_flagged_from, Nat.sub_0_r. split; [by intros [_ ?] | split; [lia|done]]. Qed.

Lemma flagged_from_length {A} (bad : A → bool) (l : list A) n :
  length (filter (λ x, bad x = false) l) + length (flagged_from bad n l) = length l.
Proof.
  revert n. induction l as [|x l IH]; intros n; [done|].
  cbn [flagged_from length]. rewrite filter_cons. specialize (IH (S n)).
  destruct (bad x); [rewrite decide_False by done | rewrite decide_True by done];
    simpl; lia.
Qed.

(** The indices flagged on a filtered column are the flagged indices of the
    column, renumbered. *)
Lemma flagged_trim_shift {A} (bad : A → bool) (l : list A) indices i :
  i ∉ indices →
  kept_before indices i ∈ flagged_from bad 0 (trim_rows indices l)
  ↔ i ∈ flagged_from bad 0 l.
Proof. intros Hi. by rewrite !elem_of_flagged, trim_rows_lookup. Qed.

(** Two validators that agree on the elements [p] holds of flag the same
    indices of a list of such elements. *)
Lemma flagged_from_agree {A} (bad bad' : A → bool) (p : A → bool) (l : list A) n :
  (∀ x, p x = true → bad x = bad' x) →
  forallb p l = true →
  flagged_from bad n l = flagged_from bad' n l.
Proof.
  intros Hagree. revert n. induction l as [|x l IH]; intros n Hl; [done|].
  cbn [forallb] in Hl. apply andb_prop in Hl as [Hx Hl].
  cbn [flagged_from]. by rewrite (Hagree x Hx), (IH _ Hl).
Qed.

(** ** The loop of [column_to_date] *)

Lemma column_to_date_loop (post pre : list cell) transformed bad_indices :
  foldl (column_to_date_step (pre ++ post)) (transformed, bad_indices)
        (seq (length pre) (length post))
  = (transformed ++ omap try_date post,
     bad_indices ++ flagged_from date_bad (length pre) post).
Proof.
  revert pre transformed bad_indices.
  induction post as [|row post IH]; intros pre transformed bad_indices.
  - simpl. by rewrite !app_nil_r.
  - cbn [length seq foldl]. unfold column_to_date_step at 2.
    rewrite lookup_app_r, Nat.sub_diag by done. cbn [lookup list_lookup].
    specialize (IH (pre ++ [row])).
    rewrite length_app, Nat.add_1_r, <-app_assoc in IH. cbn [app] in IH.
    cbn [omap list_omap flagged_from]. unfold date_bad at 1.
    destruct (try_date row); rewrite IH; by rewrite <-app_assoc.
Qed.

Lemma column_to_date_spec (col : list cell) :
  column_to_date col = (omap try_date col, flagged_from date_bad 0 col).
Proof. apply (column_to_date_loop col []). Qed.

(** Every row of a date column is either transformed or flagged. *)
Lemma column_to_date_length (col : list cell) :
  length (column_to_date col).1 + length (column_to_date col).2 = length col.
Proof.
  rewrite column_to_date_spec. cbn [fst snd].
  rewrite <-(flagged_from_length date_bad col 0). f_equal.
  induction col as [|row col IH]; [done|].
  cbn [omap list_omap]. rewrite filter_cons.
  destruct (try_date row) as [year|] eqn:Hrow.
  - rewrite decide_True by (unfold date_bad; by rewrite Hrow). simpl. by rewrite IH.
  - rewrite decide_False by (unfold date_bad; by rewrite Hrow). done.
Qed.

(** ** Text *)

Lemma split_cons sep s : ∃ first others, Py.split sep s = first :: others.
Proof.
  induction s as [|c s (first & others & IH)]; simpl; [by eauto|].
  destruct (c =? sep)%N; [by eauto|]. rewrite IH. by eauto.
Qed.

Lemma split_length sep s : 1 ≤ length (Py.split sep s).
Proof. destruct (split_cons sep s) as (first & others & ->). simpl. lia. Qed.

(** Without the separator in it, a text is its own single part. *)
Lemma split_single sep s first : Py.split sep s = [first] → first = s.
Proof.
  revert first. induction s as [|c s IH]; intros first; simpl; [congruence|].
  destruct (c =? sep)%N.
  - destruct (split_cons sep s) as (w & ws & ->). done.
  - destruct (split_cons sep s) as (w & ws & Hs). rewrite Hs in IH |- *.
    destruct ws; [|done]. intros [= <-]. by rewrite (IH w).
Qed.

Lemma slice_to_length n s : length (Py.slice_to n s) ≤ n.
Proof. unfold Py.slice_to. rewrite length_take. lia. Qed.

(** A property of the characters of a text holds of the characters of its
    parts, of its stripped form, and of a join of such texts. *)
Lemma split_parts_all (p : N → bool) (sep : N) (s : text) :
  forallb p s = true → Forall (λ part, forallb p part = true) (Py.split sep s).
Proof.
  induction s as [|c s IH]; simpl; [by repeat constructor|].
  intros [Hc Hs]%andb_prop. specialize (IH Hs).
  destruct (c =? sep)%N; [by constructor|].
  destruct (Py.split sep s) as [|w ws]; [repeat constructor; simpl; by rewrite Hc|].
  apply Forall_cons in IH as [Hw Hws]. constructor; [|done]. simpl. by rewrite Hc, Hw.
Qed.

Lemma lstrip_all (p : N → bool) (s : text) :
  forallb p s = true → forallb p (Py.lstrip s) = true.
Proof.
  induction s as [|c s IH]; [done|]. cbn [Py.lstrip]. intros Hs.
  destruct (Py.isspace c); [|done]. apply IH. simpl in Hs. by apply andb_prop in Hs as [_ ?].
Qed.

Lemma rstrip_all (p : N → bool) (s : text) :
  forallb p s = true → forallb p (Py.rstrip s) = true.
Proof.
  induction s as [|c s IH]; [done|]. cbn [Py.rstrip forallb].
  intros [Hc Hs]%andb_prop. specialize (IH Hs).
  destruct (Py.rstrip s) as [|c' r'].
  - destruct (Py.isspace c); [done|]. simpl. by rewrite Hc.
  - simpl in IH |- *. by rewrite Hc, IH.
Qed.

Lemma strip_all (p : N → bool) (s : text) :
  forallb p s = true → forallb p (Py.strip s) = true.
Proof. intros Hs. by apply rstrip_all, lstrip_all. Qed.

Lemma join_all (p : N → bool) (glue : text) (parts : list text) :
  forallb p glue = true →
  Forall (λ part, forallb p part = true) parts →
  forallb p (Py.join glue parts) = true.
Proof.
  intros Hglue. induction 1 as [|part parts Hpart Hparts IH]; [done|].
  destruct parts as [|part' parts]; [done|].
  change (Py.join glue (part :: part' :: parts))
    with (part ++ glue ++ Py.join glue (part' :: parts)).
  by rewrite !forallb_app, Hpart, Hglue, IH.
Qed.

(** ** Texts on which two databases agree *)

Lemma re_agree_refl p r : Strptime.re_agree p r r.
Proof. induction r; by constructor. Qed.

Lemma matches_app r s m : m ∈ Strptime.matches r s → s = m.1 ++ m.2.
Proof.
  revert s m. induction r as [p|a IHa b IHb|a IHa b IHb]; intros s m; simpl.
  - destruct s as [|c rest]; [by intros ?%elem_of_nil|].
    destruct (p c); [|by intros ?%elem_of_nil].
    by intros ->%list_elem_of_singleton.
  - intros (m1 & Hm & Hm1)%list_elem_of_bind.
    apply list_elem_of_bind in Hm as (m2 & Hm & Hm2).
    apply list_elem_of_singleton in Hm as ->. simpl.
    rewrite <-app_assoc, <-(IHb _ _ Hm2). by apply IHa.
  - intros [?|?]%elem_of_app; eauto.
Qed.

Lemma matches_all (p : N → bool) r s m :
  forallb p s = true → m ∈ Strptime.matches r s →
  forallb p m.1 = true ∧ forallb p m.2 = true.
Proof.
  intros Hs Hm. rewrite (matches_app r s m Hm) in Hs.
  rewrite forallb_app in Hs. by apply andb_prop in Hs.
Qed.

Lemma bind_agree {A B} (f g : A → list B) (l : list A) :
  (∀ x, x ∈ l → f x = g x) → l ≫= f = l ≫= g.
Proof.
  induction l as [|x l IH]; intros Hfg; [done|].
  rewrite !bind_cons. rewrite (Hfg x) by (by left). f_equal.
  apply IH. intros y Hy. apply Hfg. by right.
Qed.

Lemma matches_agree (p : N → bool) r r' s :
  Strptime.re_agree p r r' → forallb p s = true →
  Strptime.matches r s = Strptime.matches r' s.
Proof.
  intros Hrr. revert s.
  induction Hrr as [f g Hfg|a a' b b' _ IHa _ IHb|a a' b b' _ IHa _ IHb];
    intros s Hs; simpl.
  - destruct s as [|c rest]; [done|]. simpl in Hs.
    apply andb_prop in Hs as [Hc _]. by rewrite (Hfg c Hc).
  - rewrite (IHa s Hs). apply bind_agree. intros m1 Hm1.
    destruct (matches_all p _ _ _ Hs Hm1) as [_ H2]. by rewrite (IHb _ H2).
  - by rewrite (IHa s Hs), (IHb s Hs).
Qed.

Lemma format_matches_parts s g :
  g ∈ Strptime.format_matches s → s = g.1.1.1 ++ g.1.1.2 ++ g.1.2 ++ g.2.
Proof.
  unfold Strptime.format_matches.
  intros (y & Hg & Hy)%list_elem_of_bind.
  apply list_elem_of_bind in Hg as (m & Hg & Hm).
  apply list_elem_of_bind in Hg as (d & Hg & Hd).
  apply list_elem_of_singleton in Hg as ->. simpl.
  by rewrite <-(matches_app _ _ _ Hd), <-(matches_app _ _ _ Hm), <-(matches_app _ _ _ Hy).
Qed.

(** What the date loop does with the database [U] on texts whose characters
    have the same decimal values in a database [V], it does with [V]. *)
Section agreement.
Variable V : Unicode.
Variable p : N → bool.
Hypothesis decimal_agree : ∀ c, p c = true → decimal (Unicode := U) c = decimal (Unicode := V) c.

Lemma isdecimal_agree c :
  p c = true → Strptime.isdecimal (U := U) c = Strptime.isdecimal (U := V) c.
Proof. intros Hc. unfold Strptime.isdecimal. by rewrite (decimal_agree c Hc). Qed.

Lemma re_agree_digit : Strptime.re_agree p (Strptime.digit (U := U)) (Strptime.digit (U := V)).
Proof. constructor. apply isdecimal_agree. Qed.

Lemma format_matches_agree s :
  forallb p s = true →
  Strptime.format_matches (U := U) s = Strptime.format_matches (U := V) s.
Proof.
  intros Hs. unfold Strptime.format_matches.
  rewrite (matches_agree p (Strptime.re_Y (U := U)) (Strptime.re_Y (U := V)) s);
    [|repeat constructor; apply isdecimal_agree|done].
  apply bind_agree. intros y Hy.
  destruct (matches_all p _ _ _ Hs Hy) as [_ Hy2].
  apply bind_agree. intros m Hm.
  destruct (matches_all p _ _ _ Hy2 Hm) as [_ Hm2].
  rewrite (matches_agree p (Strptime.re_d (U := U)) (Strptime.re_d (U := V)) m.2);
    [done| |done].
  repeat first [apply re_agree_digit | apply re_agree_refl | constructor].
Qed.

Lemma digits_value_agree s acc :
  forallb p s = true →
  Strptime.digits_value (U := U) acc s = Strptime.digits_value (U := V) acc s.
Proof.
  revert acc. induction s as [|c s IH]; intros acc Hs; [done|].
  simpl in Hs. apply andb_prop in Hs as [Hc Hs].
  cbn [Strptime.digits_value]. rewrite (decimal_agree c Hc).
  destruct (decimal (Unicode := V) c); [|done]. by apply IH.
Qed.

Lemma int_agree s :
  forallb p s = true → Strptime.int (U := U) s = Strptime.int (U := V) s.
Proof.
  intros Hs. unfold Strptime.int.
  pose proof (strip_all _ s Hs) as Hstrip.
  destruct (Py.strip s) as [|c r]; [done|]. by apply digits_value_agree.
Qed.

Lemma strptime_agree s :
  forallb p s = true →
  Strptime.strptime (U := U) s = Strptime.strptime (U := V) s.
Proof.
  intros Hs. unfold Strptime.strptime.
  pose proof (format_matches_parts s) as Hparts.
  rewrite <-(format_matches_agree s Hs).
  destruct (Strptime.format_matches (U := U) s) as [|[[[y m] d] rest] others]; [done|].
  specialize (Hparts (y, m, d, rest) ltac:(by left)). simpl in Hparts.
  rewrite Hparts in Hs. rewrite !forallb_app in Hs.
  apply andb_prop in Hs as [Hy Hs]. apply andb_prop in Hs as [Hm Hs].
  apply andb_prop in Hs as [Hd _].
  by rewrite (int_agree y Hy), (int_agree m Hm), (int_agree d Hd).
Qed.

Lemma try_date_agree (c : cell) :
  cell_all p c = true → try_date (U := U) c = try_date (U := V) c.
Proof.
  destruct c as [s|city state]; [|done]. simpl. intros Hs.
  by rewrite (strptime_agree s Hs).
Qed.

Lemma date_bad_agree (c : cell) :
  cell_all p c = true → date_bad (U := U) c = date_bad (U := V) c.
Proof. intros Hc. unfold date_bad. by rewrite (try_date_agree c Hc). Qed.

Lemma omap_try_date_agree (col : list cell) :
  forallb (cell_all p) col = true →
  omap (try_date (U := U)) col = omap (try_date (U := V)) col.
Proof.
  induction col as [|c col IH]; [done|]. cbn [forallb].
  intros [Hc Hcol]%andb_prop. cbn [omap list_omap].
  by rewrite (try_date_agree c Hc), (IH Hcol).
Qed.

Lemma flagged_date_agree (col : list cell) n :
  forallb (cell_all p) col = true →
  flagged_from (date_bad (U := U)) n col = flagged_from (date_bad (U := V)) n col.
Proof. apply flagged_from_agree, date_bad_agree. Qed.

End agreement.

(** ** ASCII text under any database *)

Lemma decimal_ascii_agree c :
  (c <? 128)%N = true → decimal c = decimal (Unicode := ascii_unicode) c.
Proof. intros Hc%N.ltb_lt. by apply decimal_ascii. Qed.

(** On an ASCII text [strptime] does what it does with the ASCII database. *)
Lemma strptime_ascii s :
  Py.isascii s = true →
  Strptime.strptime s = Strptime.strptime (U := ascii_unicode) s.
Proof. apply strptime_agree, decimal_ascii_agree. Qed.

Lemma date_bad_ascii (c : cell) :
  ascii_cell c = true → date_bad c = date_bad (U := ascii_unicode) c.
Proof. apply date_bad_agree, decimal_ascii_agree. Qed.

Lemma row_flagged_ascii (row : text) :
  Py.isascii row = true → row_flagged row = row_flagged (U := ascii_unicode) row.
Proof.
  intros Hrow. unfold row_flagged.
  pose proof (split_parts_all _ COMMA row Hrow) as Hparts.
  destruct (Py.split COMMA row) as [|first [|second [|third others]]]; try done.
  apply Forall_cons in Hparts as [_ Hparts]. apply Forall_cons in Hparts as [Hsecond _].
  by rewrite (upper_ascii second Hsecond).
Qed.

Lemma omap_try_date_ascii (col : list cell) :
  forallb ascii_cell col = true →
  omap try_date col = omap (try_date (U := ascii_unicode)) col.
Proof. apply omap_try_date_agree, decimal_ascii_agree. Qed.

Lemma flagged_date_ascii (col : list cell) n :
  forallb ascii_cell col = true →
  flagged_from date_bad n col = flagged_from (date_bad (U := ascii_unicode)) n col.
Proof. apply flagged_date_agree, decimal_ascii_agree. Qed.

Lemma flagged_row_ascii (rows : list text) n :
  forallb Py.isascii rows = true →
  flagged_from row_flagged n rows = flagged_from (row_flagged (U := ascii_unicode)) n rows.
Proof. apply flagged_from_agree, row_flagged_ascii. Qed.

(** A database that gives the Arabic-Indic digits their values agrees with
    [arabic_unicode] on them and on ASCII. *)
Lemma decimal_arabic_agree :
  (∀ c, (0x660 ≤ c ≤ 0x669)%N → decimal c = Some (N.to_nat (c - 0x660))) →
  ∀ c, ascii_or_arabic_digit c = true → decimal c = decimal (Unicode := arabic_unicode) c.
Proof.
  intros Harabic c Hc. unfold ascii_or_arabic_digit in Hc. cbn [decimal arabic_unicode].
  destruct ((0x660 <=? c) && (c <=? 0x669))%N eqn:Hrange.
  - apply Harabic. apply andb_prop in Hrange as [?%N.leb_le ?%N.leb_le]. lia.
  - rewrite orb_false_r in Hc. apply N.ltb_lt in Hc. by apply decimal_ascii.
Qed.

(** Rewrites the closed forms of the loops, on ASCII columns, to what they
    are with the ASCII database, where they can be evaluated. *)
Ltac to_ascii :=
  rewrite ?omap_try_date_ascii, ?flagged_date_ascii, ?flagged_row_ascii by reflexivity.

(** ** The loop of [transform_locations] *)

Lemma location_flagged_split row :
  location_flagged (Py.split COMMA row) = Some (row_flagged row).
Proof.
  unfold location_flagged, row_flagged.
  destruct (Py.split COMMA row) as [|first [|second [|third others]]]; done.
Qed.

Lemma location_value_split row :
  location_value (Py.split COMMA row) = Some (row_value row).
Proof.
  unfold location_value, row_value.
  destruct (split_cons COMMA row) as (first & others & ->).
  destruct others as [|second others]; done.
Qed.

Lemma transform_locations_loop (post pre : list text) bad_indices transformed :
  foldl (λ st i, st ≫= λ st, transform_locations_step (Str <$> pre ++ post) st i)
        (Some (bad_indices, transformed)) (seq (length pre) (length post))
  = Some (bad_indices ++ flagged_from row_flagged (length pre) post,
          transformed ++ (row_value <$> post)).
Proof.
  revert pre bad_indices transformed.
  induction post as [|row post IH]; intros pre bad_indices transformed.
  - simpl. by rewrite !app_nil_r.
  - cbn [length seq foldl]. cbn [mbind option_bind].
    unfold transform_locations_step at 2.
    rewrite list_lookup_fmap, lookup_app_r, Nat.sub_diag by done.
    cbn [lookup list_lookup fmap option_fmap option_map].
    rewrite location_flagged_split, location_value_split.
    specialize (IH (pre ++ [row])).
    rewrite length_app, Nat.add_1_r, <-app_assoc in IH. cbn [app] in IH.
    rewrite IH. cbn [flagged_from fmap list_fmap].
    destruct (row_flagged row); by rewrite <-!app_assoc.
Qed.

Lemma transform_locations_spec (data : table) (locations : list text) :
  data !! LOCATION = Some (Str <$> locations) →
  transform_locations data
  = Some (<[LOCATION := row_value <$> locations]> data,
          flagged_from row_flagged 0 locations).
Proof.
  intros Hloc. unfold transform_locations. rewrite Hloc. cbn [mbind option_bind].
  rewrite length_fmap.
  pose proof (transform_locations_loop locations [] [] []) as Hloop.
  cbn [app length] in Hloop. cbn [mbind option_bind] in Hloop.
  by rewrite Hloop.
Qed.

(** ** Claims about the row filter *)

(** C10. Filtering with an empty index collection is the identity: the dict
    that [trim_indices] returns has every column unchanged. *)
Theorem trim_indices_empty (data : table) : trim_indices data [] = data.
Proof.
  rewrite trim_indices_fmap. apply map_eq. intros key. rewrite lookup_fmap.
  destruct (data !! key) as [rows|]; [|done].
  simpl. unfold trim_rows. by rewrite trim_from_nil.
Qed.

(** C2. For every table and every list of indices (in any order, with
    repetitions), each column of the filtered table has the length of the
    input column minus the number of distinct in-range indices, keeps the
    remaining elements in their original order (the element of an unflagged
    position [i] moves to position [i] minus the flagged positions below
    it), and depends on the index list only through its set of elements. *)
Theorem trim_indices_filter (data : table) (indices : list nat) (key : string)
    (col : list cell) :
  data !! key = Some col →
  ∃ out,
    trim_indices data indices !! key = Some out
    ∧ length out = length col - flagged_count indices (length col)
    ∧ sublist out col
    ∧ (∀ i, i ∉ indices → out !! kept_before indices i = col !! i)
    ∧ (∀ indices', (∀ i, i ∈ indices' ↔ i ∈ indices) →
         trim_indices data indices' = trim_indices data indices).
Proof.
  intros Hcol. exists (trim_rows indices col).
  rewrite trim_indices_lookup, Hcol. split_and!.
  - done.
  - apply trim_rows_length.
  - apply trim_from_sublist.
  - intros i Hi. by apply trim_rows_lookup.
  - intros indices' Hset. rewrite !trim_indices_fmap.
    apply map_fmap_ext. intros k rows _. by apply trim_from_ext.
Qed.

(** ** Claims about the location validator *)

Lemma row_flagged_iff row :
  row_flagged row = true ↔
  length (Py.split COMMA row) ≠ 2
  ∨ ∃ second, Py.split COMMA row !! 1 = Some second
              ∧ Py.strip (upper second) ∉ states.
Proof.
  unfold row_flagged.
  destruct (Py.split COMMA row) as [|first [|second [|third others]]]; simpl.
  - split; [by left | done].
  - split; [by left | done].
  - rewrite bool_decide_eq_true. split.
    + intros Hno. right. by exists second.
    + intros [?|(s & [= <-] & Hno)]; done.
  - split; [by left | done].
Qed.

(** C4. On a column of location strings, a row is flagged exactly when its
    comma-split does not have two parts or the second part, uppercased and
    stripped, is not one of the fifty state abbreviations; a one-part row is
    stored as the unchanged string, a two-part row as the city/state record
    of the raw parts.  ["Ithaca, NY"] becomes city ["Ithaca"], state [" NY"]
    and is not flagged, no more than ["Ithaca,ny "], whose state is stored
    as it is written; ["Ithaca, Ontario"] and ["Ithaca"] are flagged.  A
    state written after a no-break space is recognized when uppercasing
    leaves that text as it is. *)
Theorem transform_locations_validates :
  (length states = 50 ∧ NoDup states)
  ∧ (∀ (data : table) (locations : list text),
       data !! LOCATION = Some (Str <$> locations) →
       ∃ out bad transformed,
         transform_locations data = Some (out, bad)
         ∧ out !! LOCATION = Some transformed
         ∧ length transformed = length locations
         ∧ ∀ i row, locations !! i = Some row →
             let split := Py.split COMMA row in
             (i ∈ bad ↔
                length split ≠ 2
                ∨ ∃ second, split !! 1 = Some second
                            ∧ Py.strip (upper second) ∉ states)
             ∧ (length split = 1 → transformed !! i = Some (Str row))
             ∧ (length split = 2 →
                  ∃ city state, split = [city; state]
                                ∧ transformed !! i = Some (Loc city state)))
  ∧ transform_locations
      {[ LOCATION := [Str "Ithaca, NY"; Str "Ithaca, Ontario"; Str "Ithaca";
                      Str "Ithaca,ny "] ]}
    = Some ({[ LOCATION := [Loc "Ithaca" " NY"; Loc "Ithaca" " Ontario";
                            Str "Ithaca"; Loc "Ithaca" "ny "] ]},
            [1; 2])
  ∧ (upper (0xA0%N :: "NY") = 0xA0%N :: "NY" →
     transform_locations {[ LOCATION := [Str ("Ithaca," ++ 0xA0%N :: "NY")] ]}
     = Some ({[ LOCATION := [Loc "Ithaca" (0xA0%N :: "NY")] ]}, [])).
Proof.
  split_and!.
  - done.
  - apply (bool_decide_unpack (NoDup states)). by vm_compute.
  - intros data locations Hloc.
    eexists _, _, (row_value <$> locations).
    rewrite (transform_locations_spec data locations Hloc).
    split_and!; [done|by rewrite lookup_insert_eq|by rewrite length_fmap|].
    intros i row Hrow. cbn zeta. split_and!.
    + rewrite elem_of_flagged, <-row_flagged_iff. split.
      * intros (x & Hx & Hbad). congruence.
      * intros Hbad. by exists row.
    + intros Hlen. rewrite list_lookup_fmap, Hrow. simpl. f_equal.
      unfold row_value.
      destruct (Py.split COMMA row) as [|single [|? ?]] eqn:Hsplit; [done| |done].
      by rewrite (split_single _ _ _ Hsplit).
    + intros Hlen. rewrite list_lookup_fmap, Hrow. simpl. unfold row_value.
      destruct (Py.split COMMA row) as [|city [|state [|? ?]]]; try done.
      by exists city, state.
  - rewrite (transform_locations_spec _
               [txt "Ithaca, NY"; txt "Ithaca, Ontario"; txt "Ithaca"; txt "Ithaca,ny "])
      by apply lookup_singleton_eq.
    to_ascii. vm_compute; reflexivity.
  - intros Hupper.
    rewrite (transform_locations_spec _ [txt "Ithaca," ++ 0xA0%N :: txt "NY"])
      by apply lookup_singleton_eq.
    assert (row_flagged ("Ithaca," ++ 0xA0%N :: "NY") = false) as Hok.
    { unfold row_flagged.
      assert (Py.split COMMA ("Ithaca," ++ 0xA0%N :: "NY")
              = [txt "Ithaca"; 0xA0%N :: txt "NY"]) as -> by (vm_compute; reflexivity).
      rewrite Hupper. vm_compute; reflexivity. }
    cbn [flagged_from]. rewrite Hok. vm_compute; reflexivity.
Qed.

(** C9. A location whose comma-split has three or more parts is flagged, and
    the value stored for it is the record of its first two parts: the further
    parts are dropped and the original string is not kept. *)
Theorem transform_locations_many_parts (data : table) (locations : list text)
    (i : nat) (row : text) :
  data !! LOCATION = Some (Str <$> locations) →
  locations !! i = Some row →
  3 ≤ length (Py.split COMMA row) →
  ∃ out bad transformed city state others,
    transform_locations data = Some (out, bad)
    ∧ out !! LOCATION = Some transformed
    ∧ Py.split COMMA row = city :: state :: others
    ∧ i ∈ bad
    ∧ transformed !! i = Some (Loc city state)
    ∧ transformed !! i ≠ Some (Str row).
Proof.
  intros Hloc Hrow Hlen.
  destruct (Py.split COMMA row) as [|city [|state [|third others]]] eqn:Hsplit;
    simpl in Hlen; try lia.
  eexists _, _, (row_value <$> locations), city, state, (third :: others).
  rewrite (transform_locations_spec data locations Hloc).
  assert ((row_value <$> locations) !! i = Some (Loc city state)) as Hval.
  { rewrite list_lookup_fmap, Hrow. simpl. unfold row_value. by rewrite Hsplit. }
  split_and!; [done|by rewrite lookup_insert_eq|done| |done|by rewrite Hval].
  apply elem_of_flagged. exists row. split; [done|].
  unfold row_flagged. by rewrite Hsplit.
Qed.

(** ** The stages of [clean] *)

Lemma transform_dates_spec (data : table) (occurred reported : list cell) :
  data !! OCCURRED = Some occurred →
  data !! REPORTED = Some reported →
  transform_dates data
  = Some (<[REPORTED := omap try_date reported]>
            (<[OCCURRED := omap try_date occurred]> data),
          flagged_from date_bad 0 occurred ++ flagged_from date_bad 0 reported).
Proof.
  intros Hocc Hrep. unfold transform_dates. rewrite Hocc, Hrep.
  cbn [mbind option_bind]. by rewrite !column_to_date_spec.
Qed.

Lemma transform_dates_inv (data out : table) bad :
  transform_dates data = Some (out, bad) →
  ∃ occurred reported,
    data !! OCCURRED = Some occurred ∧ data !! REPORTED = Some reported
    ∧ out = <[REPORTED := omap try_date reported]>
              (<[OCCURRED := omap try_date occurred]> data)
    ∧ bad = flagged_from date_bad 0 occurred ++ flagged_from date_bad 0 reported.
Proof.
  intros Hrun.
  destruct (data !! OCCURRED) as [occurred|] eqn:Hocc;
    [|by unfold transform_dates in Hrun; rewrite Hocc in Hrun].
  destruct (data !! REPORTED) as [reported|] eqn:Hrep;
    [|by unfold transform_dates in Hrun; rewrite Hocc, Hrep in Hrun].
  rewrite (transform_dates_spec data occurred reported Hocc Hrep) in Hrun.
  injection Hrun as <- <-. by exists occurred, reported.
Qed.

(** [transform_locations] rebinds the location column and no other. *)
Lemma transform_locations_frame (data out : table) bad key :
  transform_locations data = Some (out, bad) →
  key ≠ LOCATION → out !! key = data !! key.
Proof.
  unfold transform_locations. intros Hrun Hkey.
  destruct (data !! LOCATION) as [locations|]; [|done].
  cbn [mbind option_bind] in Hrun.
  destruct (foldl _ _ _) as [[bad' transformed]|]; [|done].
  injection Hrun as <- <-. by rewrite lookup_insert_ne.
Qed.

Lemma clean_date_column (data out : table) key :
  clean data = Some out →
  key = OCCURRED ∨ key = REPORTED →
  ∃ col bad_dates bad_locations,
    data !! key = Some col
    ∧ out !! key
      = Some (trim_rows bad_locations (trim_rows bad_dates (omap try_date col))).
Proof.
  unfold clean. intros Hrun Hkey.
  destruct (transform_dates data) as [[d1 bad_dates]|] eqn:Hdates; [|done].
  cbn [mbind option_bind] in Hrun.
  destruct (transform_locations (trim_indices d1 bad_dates))
    as [[d2 bad_locations]|] eqn:Hlocs; [|done].
  cbn [mbind option_bind] in Hrun. injection Hrun as <-.
  apply transform_dates_inv in Hdates
    as (occurred & reported & Hocc & Hrep & -> & _).
  assert (key ≠ LOCATION) as Hne by (by destruct Hkey as [->| ->]).
  rewrite trim_indices_lookup, (transform_locations_frame _ _ _ key Hlocs Hne).
  rewrite trim_indices_lookup.
  destruct Hkey as [->| ->].
  - exists occurred, bad_dates, bad_locations.
    by rewrite lookup_insert_ne, lookup_insert_eq.
  - exists reported, bad_dates, bad_locations. by rewrite lookup_insert_eq.
Qed.

Lemma elem_of_trim_rows {A} (x : A) indices rows :
  x ∈ trim_rows indices rows → x ∈ rows.
Proof. intros Hin. eapply elem_of_sublist; [exact Hin | apply trim_from_sublist]. Qed.

(** What the date loop stores is the four-character prefix of a text that
    [strptime] accepted. *)
Lemma elem_of_transformed_dates (c : cell) (col : list cell) :
  c ∈ omap try_date col →
  ∃ s, Str s ∈ col ∧ is_Some (Strptime.strptime s) ∧ c = Str (Py.slice_to 4 s).
Proof.
  rewrite list_elem_of_omap. intros ([s|city state] & Hin & Htry); [|done].
  simpl in Htry. destruct (Strptime.strptime s) eqn:Hs; [|done].
  injection Htry as <-. exists s. by rewrite Hs.
Qed.

(** ** The year of an accepted date *)

(** [\d\d\d\d] matches in one way at most: the first four characters, when
    each has a decimal value. *)
Lemma matches_re_Y_digits (s : text) :
  Strptime.matches Strptime.re_Y s = []
  ∨ ∃ c1 c2 c3 c4 rest,
      s = c1 :: c2 :: c3 :: c4 :: rest
      ∧ Strptime.matches Strptime.re_Y s = [([c1; c2; c3; c4], rest)]
      ∧ Strptime.isdecimal c1 = true ∧ Strptime.isdecimal c2 = true
      ∧ Strptime.isdecimal c3 = true ∧ Strptime.isdecimal c4 = true.
Proof.
  destruct s as [|c1 [|c2 [|c3 [|c4 rest]]]]; cbn; try (by left).
  - destruct (Strptime.isdecimal c1); cbn; by left.
  - destruct (Strptime.isdecimal c1); cbn; [|by left].
    destruct (Strptime.isdecimal c2); cbn; by left.
  - destruct (Strptime.isdecimal c1); cbn; [|by left].
    destruct (Strptime.isdecimal c2); cbn; [|by left].
    destruct (Strptime.isdecimal c3); cbn; by left.
  - destruct (Strptime.isdecimal c1) eqn:H1; cbn; [|by left].
    destruct (Strptime.isdecimal c2) eqn:H2; cbn; [|by left].
    destruct (Strptime.isdecimal c3) eqn:H3; cbn; [|by left].
    destruct (Strptime.isdecimal c4) eqn:H4; cbn; [|by left].
    right. by exists c1, c2, c3, c4, rest.
Qed.

Lemma matches_re_Y (s : text) :
  Strptime.matches Strptime.re_Y s = []
  ∨ ∃ rest, Strptime.matches Strptime.re_Y s = [(Py.slice_to 4 s, rest)].
Proof.
  destruct (matches_re_Y_digits s)
    as [?|(c1 & c2 & c3 & c4 & rest & -> & -> & _)]; [by left|].
  right. by exists rest.
Qed.

Lemma format_matches_year (s : text) g :
  g ∈ Strptime.format_matches s → g.1.1.1 = Py.slice_to 4 s.
Proof.
  unfold Strptime.format_matches.
  destruct (matches_re_Y s) as [->|[rest ->]]; [by intros ?%elem_of_nil|].
  rewrite !list_elem_of_bind. intros (y & Hg & Hy).
  apply list_elem_of_singleton in Hy as ->.
  apply list_elem_of_bind in Hg as (m & Hg & _).
  apply list_elem_of_bind in Hg as (d & Hg & _).
  by apply list_elem_of_singleton in Hg as ->.
Qed.

(** What [strptime] returns was read from groups of a match that covers the
    whole text, the first of them its first four characters, and is a date. *)
Lemma strptime_inv (s : text) y m d :
  Strptime.strptime s = Some (y, m, d) →
  Strptime.int (Py.slice_to 4 s) = Some y ∧ Strptime.date_ok y m d = true.
Proof.
  unfold Strptime.strptime.
  destruct (Strptime.format_matches s) as [|[[[gy gm] gd] rest] others] eqn:Hm; [done|].
  assert (gy = Py.slice_to 4 s) as <-.
  { apply (format_matches_year s (gy, gm, gd, rest)). rewrite Hm. by left. }
  destruct rest; [|done].
  destruct (Strptime.int gy) as [year|]; [|done].
  destruct (Strptime.int gm) as [month|]; [|done].
  destruct (Strptime.int gd) as [day|]; [|done].
  destruct (Strptime.date_ok _ _ _) eqn:Hok; [|done]. by intros [= <- <- <-].
Qed.

(** The four characters the date loop keeps are the text of the year. *)
Lemma strptime_year (s : text) y m d :
  Strptime.strptime s = Some (y, m, d) → Strptime.int (Py.slice_to 4 s) = Some y.
Proof. intros Hs. by apply strptime_inv in Hs as [? _]. Qed.

(** What [strptime] does on some texts: a full date, a date with one-digit
    month and day (also accepted by the library), a wrong separator, a day
    that the month does not have, the year 0, and a date followed by a line
    break. *)
Example strptime_examples :
  Strptime.strptime "19870604" = Some (1987, 6, 4)
  ∧ Strptime.strptime "198764" = Some (1987, 6, 4)
  ∧ Strptime.strptime "1987-06-04" = None
  ∧ Strptime.strptime "19870230" = None
  ∧ Strptime.strptime "00000101" = None
  ∧ Strptime.strptime (ln "19870604") = None.
Proof. rewrite !strptime_ascii by reflexivity. by vm_compute. Qed.

(** What the text primitives do on some texts; the line break, the NEL
    character and the no-break space are blanks that [strip] removes. *)
Example text_examples :
  Py.split COMMA "Ithaca, NY" = [txt "Ithaca"; txt " NY"]
  ∧ Py.split COMMA "a,,b," = [txt "a"; []; txt "b"; []]
  ∧ Py.split COMMA [] = [[]]
  ∧ Py.strip (ln "  very bright ") = "very bright"
  ∧ Py.strip (0xA0%N :: "NY" ++ [0x85%N; 0x2003%N]) = "NY"
  ∧ upper " ny" = " NY"
  ∧ Py.join "  " [txt "a"; txt "b"; txt "c"] = "a  b  c"
  ∧ Py.slice_to 4 "19870604" = "1987"
  ∧ Py.slice_to 4 "198" = "198"
  ∧ Py.slice_to 4 [0x661; 0x669; 0x668; 0x667; 48; 54; 48; 52]%N
    = [0x661; 0x669; 0x668; 0x667]%N
  ∧ Py.str 104 = "104"
  ∧ Py.str 0 = "0".
Proof. rewrite (upper_ascii " ny") by reflexivity. by vm_compute. Qed.

(** ** Claims about the date validator *)

(** C3. On a column of date strings the loop stores, for the rows that
    [strptime] with the year-month-day format accepts, exactly their first
    four characters, in order, and flags exactly the indices of the rows it
    rejects; the four characters are the text of the year that [strptime]
    read.  ["19870604"] gives the working value ["1987"]; a row
    ["1987-06-04"] is flagged, and that text is in neither date column of
    the cleaned table.  When the database gives the Arabic-Indic digits
    their values, a date whose year is written with them is accepted and
    these four characters are what is stored, while a date written with them
    throughout is flagged: the month and the day of the format are ranges of
    ASCII digits. *)
Theorem column_to_date_validates :
  (∀ rows : list text,
     (column_to_date (Str <$> rows)).1
     = (λ s, Str (Py.slice_to 4 s))
         <$> filter (λ s, is_Some (Strptime.strptime s)) rows
     ∧ ∀ i, i ∈ (column_to_date (Str <$> rows)).2
            ↔ ∃ s, rows !! i = Some s ∧ Strptime.strptime s = None)
  ∧ (∀ s y m d,
       Strptime.strptime s = Some (y, m, d) →
       Strptime.int (Py.slice_to 4 s) = Some y)
  ∧ column_to_date [Str "19870604"] = ([Str "1987"], [])
  ∧ (∀ (col : list cell) i,
       col !! i = Some (Str "1987-06-04") → i ∈ (column_to_date col).2)
  ∧ (∀ (data out : table) key,
       key = OCCURRED ∨ key = REPORTED →
       clean data = Some out →
       ∃ col, out !! key = Some col ∧ Str "1987-06-04" ∉ col)
  ∧ ((∀ c, (0x660 ≤ c ≤ 0x669)%N → decimal c = Some (N.to_nat (c - 0x660))) →
     column_to_date
       [Str ([0x661; 0x669; 0x668; 0x667]%N ++ "0604");
        Str [0x661; 0x669; 0x668; 0x667; 0x660; 0x666; 0x660; 0x664]%N]
     = ([Str [0x661; 0x669; 0x668; 0x667]%N], [1])).
Proof.
  split_and!; [..|intros Harabic].
  - intros rows. rewrite column_to_date_spec. cbn [fst snd]. split.
    + induction rows as [|s rows IH]; [done|].
      rewrite fmap_cons. cbn [omap list_omap try_date]. rewrite filter_cons.
      destruct (Strptime.strptime s) eqn:Hs.
      * rewrite decide_True by done. rewrite fmap_cons. by f_equal.
      * rewrite decide_False; [done|]. by intros [? ?].
    + intros i. rewrite elem_of_flagged. split.
      * intros (c & Hc & Hbad). rewrite list_lookup_fmap in Hc.
        destruct (rows !! i) as [s|]; [|done]. injection Hc as <-.
        exists s. split; [done|]. unfold date_bad in Hbad. simpl in Hbad.
        by destruct (Strptime.strptime s).
      * intros (s & Hs & Hno). exists (Str s).
        rewrite list_lookup_fmap, Hs. split; [done|].
        unfold date_bad. simpl. by rewrite Hno.
  - apply strptime_year.
  - rewrite column_to_date_spec. to_ascii. vm_compute; reflexivity.
  - intros col i Hi. rewrite column_to_date_spec. cbn [snd].
    apply elem_of_flagged. exists (Str "1987-06-04"). split; [done|].
    rewrite date_bad_ascii by reflexivity. vm_compute; reflexivity.
  - intros data out key Hkey Hrun.
    destruct (clean_date_column data out key Hrun Hkey)
      as (col & bad_dates & bad_locations & _ & Hout).
    eexists. split; [exact Hout|]. intros Hin.
    do 2 apply elem_of_trim_rows in Hin.
    apply elem_of_transformed_dates in Hin as (s & _ & _ & Heq).
    pose proof (slice_to_length 4 s) as Hlen.
    assert (Py.slice_to 4 s = txt "1987-06-04") as Hs by congruence.
    rewrite Hs in Hlen. vm_compute in Hlen. lia.
  - rewrite column_to_date_spec.
    rewrite (omap_try_date_agree arabic_unicode _ (decimal_arabic_agree Harabic))
      by reflexivity.
    rewrite (flagged_date_agree arabic_unicode _ (decimal_arabic_agree Harabic))
      by reflexivity.
    vm_compute; reflexivity.
Qed.

(** ** Alignment of the columns *)

Lemma trim_indices_aligned (data : table) indices n :
  aligned_at n data →
  aligned_at (n - flagged_count indices n) (trim_indices data indices).
Proof.
  intros Hal key Hkey. destruct (Hal key Hkey) as (rows & Hrows & <-).
  exists (trim_rows indices rows).
  by rewrite trim_indices_lookup, Hrows, trim_rows_length.
Qed.

Lemma locations_loop_None (locations : list cell) positions :
  foldl (λ st i, st ≫= λ st, transform_locations_step locations st i) None positions
  = None.
Proof. by induction positions. Qed.

Lemma locations_loop_length (locations : list cell) n k bad transformed bad' transformed' :
  foldl (λ st i, st ≫= λ st, transform_locations_step locations st i)
        (Some (bad, transformed)) (seq k n) = Some (bad', transformed') →
  length transformed' = length transformed + n.
Proof.
  revert k bad transformed. induction n as [|n IH]; intros k bad transformed.
  - simpl. intros [= <- <-]. lia.
  - cbn [seq foldl]. cbn [mbind option_bind].
    destruct (transform_locations_step locations (bad, transformed) k)
      as [[bad1 transformed1]|] eqn:Hstep.
    + intros Hrest. apply IH in Hrest. rewrite Hrest.
      unfold transform_locations_step in Hstep.
      destruct (locations !! k) as [[row|city state]|]; [|done|done].
      destruct (location_flagged (Py.split COMMA row)) as [flagged|]; [|done].
      destruct (location_value (Py.split COMMA row)) as [value|]; [|done].
      injection Hstep as <- <-. rewrite length_app. simpl. lia.
    + by rewrite locations_loop_None.
Qed.

(** The location stage keeps the columns aligned. *)
Lemma transform_locations_aligned (data out : table) bad n :
  aligned_at n data →
  transform_locations data = Some (out, bad) →
  aligned_at n out.
Proof.
  intros Hal Hrun key Hkey.
  destruct (decide (key = LOCATION)) as [->|Hne].
  - destruct (Hal LOCATION Hkey) as (locations & Hloc & Hlen).
    unfold transform_locations in Hrun. rewrite Hloc in Hrun.
    cbn [mbind option_bind] in Hrun.
    destruct (foldl _ _ _) as [[bad' transformed]|] eqn:Hloop; [|done].
    injection Hrun as <- <-. exists transformed.
    rewrite lookup_insert_eq. split; [done|].
    apply locations_loop_length in Hloop. simpl in Hloop. lia.
  - rewrite (transform_locations_frame _ _ _ key Hrun Hne). by apply Hal.
Qed.

(** C1 (the code departs from it). The date stage does not keep the columns
    aligned: the loop of [column_to_date] appends nothing for a row it flags,
    so the column it returns is shorter than its input by the number of
    flagged rows.  On a one-row table whose occurrence date is
    ["1987-06-04"] index 0 is flagged and the occurrence column comes back
    empty while the other five columns keep their row. *)
Theorem transform_dates_breaks_alignment :
  (∀ col : list cell,
     length (column_to_date col).1 + length (column_to_date col).2 = length col)
  ∧ aligned_at 1 misdated_row
  ∧ column_to_date [Str "1987-06-04"] = ([], [0])
  ∧ ∃ out,
      transform_dates misdated_row = Some (out, [0])
      ∧ out !! OCCURRED = Some []
      ∧ out !! REPORTED = Some [Str "1987"]
      ∧ out !! LOCATION = Some [Str "Ithaca, NY"]
      ∧ ¬ aligned out.
Proof.
  split_and!.
  - apply column_to_date_length.
  - intros key Hkey. each_column Hkey; eexists; (split; [vm_compute; reflexivity|done]).
  - rewrite column_to_date_spec. to_ascii. vm_compute; reflexivity.
  - exists (<[REPORTED := [Str "1987"]]> (<[OCCURRED := []]> misdated_row)).
    split_and!; [|vm_compute; reflexivity..|].
    + rewrite (transform_dates_spec misdated_row [Str "1987-06-04"] [Str "19870610"])
        by (vm_compute; reflexivity).
      to_ascii. vm_compute; reflexivity.
    + intros [n Hal].
      destruct (Hal OCCURRED) as (occurred & Hocc & Hocc_len);
        [apply elem_of_cons; by left|].
      destruct (Hal REPORTED) as (reported & Hrep & Hrep_len);
        [apply elem_of_cons; right; apply elem_of_cons; by left|].
      vm_compute in Hocc. vm_compute in Hrep.
      injection Hocc as <-. injection Hrep as <-.
      cbn [length] in Hocc_len, Hrep_len. lia.
Qed.

(** ** The line parser *)

Lemma column_names_NoDup : NoDup column_names.
Proof. apply (bool_decide_unpack (NoDup column_names)). by vm_compute. Qed.

Lemma strip_nonempty (l : list text) :
  Py.strip <$> filter (λ item, Py.truthy (Py.strip item) = true) l
  = filter (λ t, t ≠ []) (Py.strip <$> l).
Proof.
  induction l as [|item l IH]; [done|].
  rewrite fmap_cons, !filter_cons.
  destruct (Py.strip item) eqn:Hitem; simpl.
  - exact IH.
  - rewrite Hitem. f_equal. exact IH.
Qed.

(** [fix_long_description] on six tokens or more. *)
Lemma fix_long_description_ge (tokens : list text) :
  length column_names ≤ length tokens →
  fix_long_description tokens
  = Some (take 5 tokens
          ++ [Py.join "  " (filter (λ t, t ≠ []) (Py.strip <$> drop 5 tokens))]).
Proof.
  intros Hlen. unfold fix_long_description.
  change (length column_names) with 6 in *. cbn [Nat.sub Nat.add].
  rewrite decide_True by lia. rewrite strip_nonempty. f_equal.
  generalize (Py.join "  " (filter (λ t, t ≠ []) (Py.strip <$> drop 5 tokens))).
  intros joined.
  destruct tokens as [|t0 [|t1 [|t2 [|t3 [|t4 [|t5 more]]]]]]; simpl in Hlen; try lia.
  done.
Qed.

Lemma fix_long_description_spec (tokens : list text) :
  length column_names < length tokens →
  fix_long_description tokens
  = Some (take 5 tokens
          ++ [Py.join "  " (filter (λ t, t ≠ []) (Py.strip <$> drop 5 tokens))]).
Proof. intros Hlen. apply fix_long_description_ge. lia. Qed.

Lemma fields_of_length (line : text) :
  length column_names ≤ length (Py.split TAB line) →
  length (fields_of line) = length column_names.
Proof.
  intros Hlen. unfold fields_of. case_decide as Hmore;
    change (length column_names) with 6 in *; [|lia].
  rewrite length_app, length_take. cbn [length]. lia.
Qed.

Lemma load_fields_spec (split_line : list text) n k (data : table) :
  k + n = length column_names →
  k ≤ length split_line →
  columns_present data →
  ∃ out,
    load_fields split_line (seq k n) data
    = (out, if decide (length column_names ≤ length split_line)
            then None else Some IndexError)
    ∧ ∀ j key, column_names !! j = Some key →
        out !! key = (λ rows, rows ++ appended k split_line j) <$> data !! key.
Proof.
  revert k data. induction n as [|n IH]; intros k data Hkn Hk Hpresent.
  - exists data. cbn [seq load_fields]. split.
    + rewrite decide_True by lia. done.
    + intros j key Hj. apply lookup_lt_Some in Hj. unfold appended.
      rewrite decide_False by lia. destruct (data !! key); simpl; [|done].
      by rewrite app_nil_r.
  - cbn [seq load_fields].
    destruct (lookup_lt_is_Some_2 column_names k ltac:(lia)) as [key_k Hkey_k].
    rewrite Hkey_k.
    destruct (split_line !! k) as [val|] eqn:Hval.
    + destruct (Hpresent key_k) as [rows Hrows];
        [by eapply list_elem_of_lookup_2|].
      rewrite Hrows.
      destruct (IH (S k) (<[key_k := rows ++ [Str val]]> data)) as (out & Hrun & Hout).
      * lia.
      * apply lookup_lt_Some in Hval. lia.
      * intros key Hkey. destruct (decide (key = key_k)) as [->|Hne].
        -- by rewrite lookup_insert_eq.
        -- rewrite lookup_insert_ne by done. by apply Hpresent.
      * exists out. split; [done|]. intros j key Hj. rewrite (Hout j key Hj).
        unfold appended. destruct (decide (j = k)) as [->|Hjk].
        -- assert (key = key_k) as -> by congruence.
           rewrite lookup_insert_eq, Hrows, Hval. simpl.
           rewrite decide_False by lia. rewrite decide_True by lia.
           by rewrite app_nil_r.
        -- assert (key ≠ key_k) as Hne.
           { intros ->. apply Hjk.
             eapply NoDup_lookup; [apply column_names_NoDup|done..]. }
           rewrite lookup_insert_ne by done.
           destruct (decide (S k ≤ j)), (decide (k ≤ j)); try lia; done.
    + exists data. apply lookup_ge_None in Hval. split.
      * rewrite decide_False by lia. done.
      * intros j key Hj. unfold appended.
        destruct (decide (k ≤ j)).
        -- rewrite (proj2 (lookup_ge_None split_line j)) by lia.
           destruct (data !! key); simpl; [|done]. by rewrite app_nil_r.
        -- destruct (data !! key); simpl; [|done]. by rewrite app_nil_r.
Qed.

Lemma appended_present (data out : table) (extra : nat → list cell) :
  columns_present data →
  (∀ j key, column_names !! j = Some key →
     out !! key = (λ rows, rows ++ extra j) <$> data !! key) →
  columns_present out.
Proof.
  intros Hpresent Hout key Hkey.
  destruct (proj1 (list_elem_of_lookup _ _) Hkey) as [j Hj].
  rewrite (Hout j key Hj). apply fmap_is_Some. by apply Hpresent.
Qed.

(** A line with at least six tokens is accepted: it appends its value to
    every column. *)
Lemma load_line_accepted (line : text) (data : table) :
  length column_names ≤ length (Py.split TAB line) →
  columns_present data →
  ∃ out,
    load_line line data = (out, None)
    ∧ columns_present out
    ∧ ∀ j key, column_names !! j = Some key →
        ∃ val, fields_of line !! j = Some val
               ∧ out !! key = (λ rows, rows ++ [Str val]) <$> data !! key.
Proof.
  intros Hlen Hpresent. unfold load_line.
  assert ((if decide (length column_names < length (Py.split TAB line))
           then fix_long_description (Py.split TAB line)
           else Some (Py.split TAB line)) = Some (fields_of line)) as ->.
  { unfold fields_of. case_decide; [by apply fix_long_description_spec|done]. }
  pose proof (fields_of_length line Hlen) as Hfields.
  destruct (load_fields_spec (fields_of line) (length column_names) 0 data)
    as (out & Hrun & Hout); [done|lia|done|].
  rewrite decide_True in Hrun by lia.
  exists out. split; [done|].
  assert (∀ j key, column_names !! j = Some key →
            ∃ val, fields_of line !! j = Some val
                   ∧ appended 0 (fields_of line) j = [Str val]) as Hval.
  { intros j key Hj. apply lookup_lt_Some in Hj.
    destruct (lookup_lt_is_Some_2 (fields_of line) j ltac:(lia)) as [val Hv].
    exists val. split; [done|]. unfold appended.
    rewrite decide_True by lia. by rewrite Hv. }
  split.
  - by eapply appended_present.
  - intros j key Hj. destruct (Hval j key Hj) as (val & Hv & Happ).
    exists val. split; [done|]. by rewrite (Hout j key Hj), Happ.
Qed.

(** A line with fewer than six tokens raises [IndexError] at the first
    column it has no token for; the columns before it have been appended to. *)
Lemma load_line_rejected (line : text) (data : table) :
  length (Py.split TAB line) < length column_names →
  columns_present data →
  ∃ out,
    load_line line data = (out, Some IndexError)
    ∧ ∀ j key, column_names !! j = Some key →
        out !! key
        = (λ rows, rows ++ match Py.split TAB line !! j with
                           | Some val => [Str val]
                           | None => []
                           end) <$> data !! key.
Proof.
  intros Hlen Hpresent. unfold load_line.
  rewrite decide_False by lia.
  destruct (load_fields_spec (Py.split TAB line) (length column_names) 0 data)
    as (out & Hrun & Hout); [done|lia|done|].
  rewrite decide_False in Hrun by lia.
  exists out. split; [done|]. intros j key Hj. rewrite (Hout j key Hj).
  unfold appended. by rewrite decide_True by lia.
Qed.

(** ** The loader *)

Lemma empty_table_lookup key : key ∈ column_names → empty_table !! key = Some [].
Proof. intros Hkey. each_column Hkey; vm_compute; reflexivity. Qed.

Lemma empty_table_present : columns_present empty_table.
Proof. intros key Hkey. rewrite empty_table_lookup by done. by eexists. Qed.

Lemma load_lines_accepted (accepted : list text) line_num (data : table) :
  Forall accepted_line accepted →
  columns_present data →
  ∃ out,
    load_lines accepted line_num data = (out, line_num + length accepted, None)
    ∧ columns_present out
    ∧ (∀ rest, load_lines (accepted ++ rest) line_num data
               = load_lines rest (line_num + length accepted) out)
    ∧ ∀ j key, column_names !! j = Some key →
        length (column_of j accepted) = length accepted
        ∧ out !! key
          = (λ rows, rows ++ (Str <$> column_of j accepted)) <$> data !! key.
Proof.
  intros Hacc. revert line_num data.
  induction Hacc as [|line accepted Hline Hacc IH]; intros line_num data Hpresent.
  - exists data. rewrite Nat.add_0_r. split_and!; [done..|].
    intros j key Hj. split; [done|].
    destruct (data !! key); simpl; [|done]. by rewrite app_nil_r.
  - destruct (load_line_accepted line data Hline Hpresent)
      as (out1 & Hrun1 & Hpresent1 & Hout1).
    destruct (IH (S line_num) out1 Hpresent1) as (out & Hrun & Hpresent' & Happ & Hout).
    exists out. cbn [load_lines length app]. rewrite Hrun1.
    replace (line_num + S (length accepted)) with (S line_num + length accepted) by lia.
    split_and!; [done..|].
    intros j key Hj.
    destruct (Hout1 j key Hj) as (val & Hval & Hkey1).
    destruct (Hout j key Hj) as (Hlen & Hkey).
    unfold column_of in *. cbn [omap list_omap]. rewrite Hval. split.
    + simpl. by rewrite Hlen.
    + rewrite Hkey, Hkey1. destruct (data !! key); simpl; [|done].
      by rewrite <-app_assoc.
Qed.

(** The table and the log of a file whose first lines are accepted and
    whose next line is too short. *)
Lemma load_data_rejected (accepted rest : list text) (bad_line : text) :
  Forall accepted_line accepted →
  length (Py.split TAB bad_line) < length column_names →
  ∃ before,
    load_data accepted = (before, [])
    ∧ columns_present before
    ∧ (∀ j key, column_names !! j = Some key →
         length (column_of j accepted) = length accepted
         ∧ before !! key = Some (Str <$> column_of j accepted))
    ∧ load_data (accepted ++ bad_line :: rest)
      = ((load_line bad_line before).1,
         LogError (Text ("Found error on line number " ++ Py.str (length accepted)))
           :: err_printer IndexError).
Proof.
  intros Hacc Hbad.
  destruct (load_lines_accepted accepted 0 empty_table Hacc empty_table_present)
    as (before & Hrun & Hpresent & Happ & Hout).
  exists before. unfold load_data. rewrite Hrun, Happ. cbn [Nat.add].
  split_and!; [done..| |].
  - intros j key Hj. destruct (Hout j key Hj) as (Hlen & Hkey).
    split; [done|]. rewrite Hkey, empty_table_lookup; [done|].
    by eapply list_elem_of_lookup_2.
  - destruct (load_line_rejected bad_line before Hbad Hpresent) as (out & Hline & _).
    cbn [load_lines]. by rewrite Hline.
Qed.

(** ** Claims about the line parser and the loader *)

(** C5. When the tab-split of a line has more than six tokens, the tokens
    from the sixth on are stripped, the empty ones dropped and the rest joined
    by two blanks into the single last field, so that the line has six fields
    and appends exactly one value to every column.  A long description
    ["lights in the sky<TAB>very bright<TAB>moving slowly"] is stored as
    ["lights in the sky  very bright  moving slowly"]; one cut into [f], a
    lone no-break space and [g] followed by a NEL character is stored as
    ["f  g"], both being blanks that stripping removes. *)
Theorem load_line_reconciles :
  (∀ (line : text) (data : table),
     length column_names < length (Py.split TAB line) →
     columns_present data →
     let tokens := Py.split TAB line in
     let final :=
       Py.join "  " (filter (λ t, t ≠ []) (Py.strip <$> drop 5 tokens)) in
     fix_long_description tokens = Some (take 5 tokens ++ [final])
     ∧ length (take 5 tokens ++ [final]) = length column_names
     ∧ ∃ out,
         load_line line data = (out, None)
         ∧ ∀ j key, column_names !! j = Some key →
             ∃ val, (take 5 tokens ++ [final]) !! j = Some val
                    ∧ out !! key = (λ rows, rows ++ [Str val]) <$> data !! key)
  ∧ fix_long_description (Py.split TAB tabbed_sighting)
    = Some [txt "19870604"; txt "19870610"; txt "Ithaca, NY"; txt "lights";
            txt "1 min"; txt "lights in the sky  very bright  moving slowly"]
  ∧ (load_data [tabbed_sighting]).1 !! LONG_DESCRIPTION
    = Some [Str "lights in the sky  very bright  moving slowly"]
  ∧ Py.split TAB blank_sighting
    = [txt "19870604"; txt "19870610"; txt "Ithaca, NY"; txt "lights";
       txt "1 min"; txt "f"; [0xA0%N]; "g" ++ [0x85%N]]
  ∧ fix_long_description (Py.split TAB blank_sighting)
    = Some [txt "19870604"; txt "19870610"; txt "Ithaca, NY"; txt "lights";
            txt "1 min"; txt "f  g"]
  ∧ (load_data [blank_sighting]).1 !! LONG_DESCRIPTION = Some [Str "f  g"].
Proof.
  split_and!.
  - intros line data Hlen Hpresent tokens final.
    assert (fields_of line = take 5 tokens ++ [final]) as Hfields.
    { unfold fields_of. by rewrite decide_True by done. }
    split_and!.
    + by apply fix_long_description_spec.
    + rewrite <-Hfields. apply fields_of_length. unfold tokens in *. lia.
    + destruct (load_line_accepted line data) as (out & Hrun & _ & Hout);
        [unfold accepted_line; lia|done|].
      exists out. split; [done|]. by rewrite <-Hfields.
  - vm_compute; reflexivity.
  - vm_compute; reflexivity.
  - vm_compute; reflexivity.
  - vm_compute; reflexivity.
  - vm_compute; reflexivity.
Qed.

Lemma split_lookup_first sep s : is_Some (Py.split sep s !! 0).
Proof. destruct (split_cons sep s) as (first & others & ->). by eexists. Qed.

(** C6, as the code has it. When the lines before a too-short line are all
    accepted, the returned table holds, in every column, the values of those
    lines in order, followed by the token the short line has for that column
    if it has one: the leading columns are one value longer than the trailing
    ones, and the lines after the short one contribute nothing. *)
Theorem load_data_partial_table (accepted rest : list text) (bad_line : text) :
  Forall accepted_line accepted →
  length (Py.split TAB bad_line) < length column_names →
  ∃ before,
    load_data accepted = (before, [])
    ∧ (∀ j key, column_names !! j = Some key →
         ∃ rows,
           before !! key = Some rows
           ∧ rows = Str <$> column_of j accepted
           ∧ length rows = length accepted
           ∧ (load_data (accepted ++ bad_line :: rest)).1 !! key
             = Some (rows ++ match Py.split TAB bad_line !! j with
                             | Some val => [Str val]
                             | None => []
                             end))
    ∧ ¬ aligned (load_data (accepted ++ bad_line :: rest)).1.
Proof.
  intros Hacc Hbad.
  destruct (load_data_rejected accepted rest bad_line Hacc Hbad)
    as (before & Hbefore & Hpresent & Hcols & Hload).
  destruct (load_line_rejected bad_line before Hbad Hpresent) as (out & Hline & Hout).
  rewrite Hload, Hline. cbn [fst].
  assert (∀ j key, column_names !! j = Some key →
            out !! key
            = Some ((Str <$> column_of j accepted)
                    ++ match Py.split TAB bad_line !! j with
                       | Some val => [Str val]
                       | None => []
                       end)) as Hpartial.
  { intros j key Hj. destruct (Hcols j key Hj) as (_ & Hkey).
    by rewrite (Hout j key Hj), Hkey. }
  exists before. split_and!; [done| |].
  - intros j key Hj. destruct (Hcols j key Hj) as (Hlen & Hkey).
    exists (Str <$> column_of j accepted).
    split_and!; [done|done|by rewrite length_fmap|by apply Hpartial].
  - intros [n Hal].
    destruct (Hal OCCURRED) as (first & Hfirst & Hfirst_len);
      [apply elem_of_cons; by left|].
    destruct (Hal LONG_DESCRIPTION) as (last & Hlast & Hlast_len);
      [by apply (list_elem_of_lookup_2 column_names 5)|].
    rewrite (Hpartial 0 OCCURRED eq_refl) in Hfirst.
    rewrite (Hpartial 5 LONG_DESCRIPTION eq_refl) in Hlast.
    destruct (split_lookup_first TAB bad_line) as [val Hval]. rewrite Hval in Hfirst.
    rewrite (proj2 (lookup_ge_None (Py.split TAB bad_line) 5)) in Hlast
      by (change (length column_names) with 6 in Hbad; lia).
    injection Hfirst as <-. injection Hlast as <-.
    rewrite length_app, length_fmap in Hfirst_len, Hlast_len.
    rewrite (proj1 (Hcols 0 OCCURRED eq_refl)) in Hfirst_len.
    rewrite (proj1 (Hcols 5 LONG_DESCRIPTION eq_refl)) in Hlast_len.
    simpl in Hfirst_len, Hlast_len. lia.
Qed.

(** ** Tables of raw strings *)

Lemma raw_table_present (data : table) : raw_table data → columns_present data.
Proof. intros Hraw key Hkey. destruct (Hraw key Hkey) as [vals ->]. by eexists. Qed.

Lemma load_line_raw (line : text) (data : table) :
  raw_table data → raw_table (load_line line data).1.
Proof.
  intros Hraw key Hkey. pose proof (raw_table_present data Hraw) as Hpresent.
  destruct (Hraw key Hkey) as [vals Hvals].
  destruct (proj1 (list_elem_of_lookup _ _) Hkey) as [j Hj].
  destruct (decide (length column_names ≤ length (Py.split TAB line))) as [Hlen|Hlen].
  - destruct (load_line_accepted line data Hlen Hpresent) as (out & -> & _ & Hout).
    destruct (Hout j key Hj) as (val & _ & Hkey_out).
    exists (vals ++ [val]). cbn [fst]. by rewrite Hkey_out, Hvals, fmap_app.
  - destruct (load_line_rejected line data ltac:(lia) Hpresent) as (out & -> & Hout).
    cbn [fst]. rewrite (Hout j key Hj), Hvals. simpl.
    destruct (Py.split TAB line !! j) as [val|].
    + exists (vals ++ [val]). by rewrite fmap_app.
    + exists vals. by rewrite app_nil_r.
Qed.

Lemma load_lines_raw (lines : list text) line_num (data : table) :
  raw_table data → raw_table (load_lines lines line_num data).1.1.
Proof.
  revert line_num data. induction lines as [|line lines IH]; intros line_num data Hraw.
  - done.
  - cbn [load_lines]. pose proof (load_line_raw line data Hraw) as Hline.
    destruct (load_line line data) as [out [e|]]; [done|]. by apply IH.
Qed.

Lemma load_data_raw (lines : list text) : raw_table (load_data lines).1.
Proof.
  unfold load_data.
  pose proof (load_lines_raw lines 0 empty_table) as Hraw.
  destruct (load_lines lines 0 empty_table) as [[data line_num] raised].
  apply Hraw. intros key Hkey. exists []. by apply empty_table_lookup.
Qed.

(** ** The two stages in sequence *)

Lemma trim_rows_fmap {A B} (f : A → B) indices (rows : list A) :
  trim_rows indices (f <$> rows) = f <$> trim_rows indices rows.
Proof. apply trim_from_fmap. Qed.

Lemma clean_spec (data : table) (occurred reported : list cell) (locations : list text) :
  data !! OCCURRED = Some occurred →
  data !! REPORTED = Some reported →
  data !! LOCATION = Some (Str <$> locations) →
  let bad_dates := flagged_from date_bad 0 occurred ++ flagged_from date_bad 0 reported in
  let dated := <[REPORTED := omap try_date reported]>
                 (<[OCCURRED := omap try_date occurred]> data) in
  clean data
  = Some (trim_indices
            (<[LOCATION := row_value <$> trim_rows bad_dates locations]>
               (trim_indices dated bad_dates))
            (flagged_from row_flagged 0 (trim_rows bad_dates locations)))
  ∧ clean_single_pass data
    = Some (trim_indices (<[LOCATION := row_value <$> locations]> dated)
              (bad_dates ++ flagged_from row_flagged 0 locations)).
Proof.
  intros Hocc Hrep Hloc bad_dates dated.
  assert (dated !! LOCATION = Some (Str <$> locations)) as Hdated.
  { unfold dated. by rewrite !lookup_insert_ne. }
  unfold clean, clean_single_pass.
  rewrite (transform_dates_spec data occurred reported Hocc Hrep).
  cbn [mbind option_bind]. fold bad_dates dated. split.
  - rewrite (transform_locations_spec _ (trim_rows bad_dates locations)); [done|].
    by rewrite trim_indices_lookup, Hdated, <-trim_rows_fmap.
  - by rewrite (transform_locations_spec _ locations Hdated).
Qed.

(** The pipeline runs to its end on every table of raw strings. *)
Lemma clean_raw (data : table) : raw_table data → is_Some (clean data).
Proof.
  intros Hraw.
  destruct (Hraw OCCURRED) as [occurred Hocc]; [apply elem_of_cons; by left|].
  destruct (Hraw REPORTED) as [reported Hrep];
    [by apply (list_elem_of_lookup_2 column_names 1)|].
  destruct (Hraw LOCATION) as [locations Hloc];
    [by apply (list_elem_of_lookup_2 column_names 2)|].
  destruct (clean_spec data _ _ locations Hocc Hrep Hloc) as [-> _]. by eexists.
Qed.

(** The cleaned table in one filter pass over the transformed table. *)
Lemma clean_closed_form (data : table) (occurred reported : list cell)
    (locations : list text) :
  data !! OCCURRED = Some occurred →
  data !! REPORTED = Some reported →
  data !! LOCATION = Some (Str <$> locations) →
  ∃ out,
    clean data = Some out
    ∧ out = trim_indices
              (<[LOCATION := row_value <$> locations]>
                 (<[REPORTED := omap try_date reported]>
                    (<[OCCURRED := omap try_date occurred]> data)))
              ((flagged_from date_bad 0 occurred ++ flagged_from date_bad 0 reported)
               ++ flagged_from row_flagged 0 locations).
Proof.
  intros Hocc Hrep Hloc.
  destruct (clean_spec data occurred reported locations Hocc Hrep Hloc) as [Hclean _].
  eexists. split; [exact Hclean|].
  set (bad_dates := flagged_from date_bad 0 occurred ++ flagged_from date_bad 0 reported).
  assert (∀ A (rows : list A),
    trim_rows (flagged_from row_flagged 0 (trim_rows bad_dates locations))
      (trim_rows bad_dates rows)
    = trim_rows (bad_dates ++ flagged_from row_flagged 0 locations) rows) as Htwice.
  { intros A rows. apply trim_rows_twice. intros i Hi. by apply flagged_trim_shift. }
  apply map_eq. intros key. rewrite !trim_indices_lookup.
  destruct (decide (key = LOCATION)) as [->|Hne].
  - rewrite !lookup_insert_eq. simpl. f_equal. by rewrite !trim_rows_fmap, Htwice.
  - rewrite !(lookup_insert_ne _ LOCATION) by done. rewrite trim_indices_lookup.
    destruct (_ !! key) as [rows|]; simpl; [|done]. by rewrite Htwice.
Qed.

(** The effect of the missing append on the whole clean-up: of three
    sightings only the third is valid and survives, yet its occurrence year
    does not; the occurrence column ends empty next to one-row columns. *)
Example clean_loses_the_date_of_a_kept_row :
  clean two_flagged_rows ≫= (.!! SHORT_DESCRIPTION) = Some [Str "third"]
  ∧ clean two_flagged_rows ≫= (.!! LOCATION) = Some [Loc "Austin" " TX"]
  ∧ clean two_flagged_rows ≫= (.!! REPORTED) = Some [Str "1987"]
  ∧ clean two_flagged_rows ≫= (.!! OCCURRED) = Some [].
Proof.
  destruct (clean_closed_form two_flagged_rows
              [Str "1987-06-04"; Str "19870605"; Str "19870606"]
              [Str "19870610"; Str "19870611"; Str "19870612"]
              [txt "Ithaca, NY"; txt "Ithaca"; txt "Austin, TX"])
    as (out & -> & ->); [vm_compute; reflexivity..|].
  to_ascii. repeat split; vm_compute; reflexivity.
Qed.

(** ** Claims about error handling *)

(** C7, as the code has it. A too-short line after accepted lines ends the
    loop of [load_data] with an [IndexError] that is caught there: exactly one
    error message with a line number is logged, the number being the count of
    lines accepted before the short line (its position counted from 0),
    followed by the type and value of the exception; [load_data] returns the
    table as the short line left it, and the clean-up stages run on that
    table without raising. *)
Theorem load_data_absorbs_error (accepted rest : list text) (bad_line : text) :
  Forall accepted_line accepted →
  length (Py.split TAB bad_line) < length column_names →
  ∃ before partial,
    load_data accepted = (before, [])
    ∧ load_line bad_line before = (partial, Some IndexError)
    ∧ load_data (accepted ++ bad_line :: rest)
      = (partial,
         [LogError (Text ("Found error on line number " ++ Py.str (length accepted)));
          LogError (ExcType IndexError);
          LogError (ExcValue IndexError);
          LogError PyNone])
    ∧ is_Some (clean partial).
Proof.
  intros Hacc Hbad.
  destruct (load_data_rejected accepted rest bad_line Hacc Hbad)
    as (before & Hbefore & Hpresent & _ & Hload).
  destruct (load_line_rejected bad_line before Hbad Hpresent) as (partial & Hline & _).
  exists before, partial. rewrite Hload, Hline. split_and!; [done..|].
  apply clean_raw.
  replace partial with (load_data (accepted ++ bad_line :: rest)).1
    by (by rewrite Hload, Hline).
  apply load_data_raw.
Qed.

(** ** Claims about the order of the two filter passes *)

(** C8. On a table with both date columns and strings as locations, the two
    validate-then-filter stages of [main] (the location indices computed on
    the table the date pass has filtered, and removed from it) give the same
    table as one filter pass that removes the union of the date indices and
    of the location indices, both computed on the table before any row is
    removed. *)
Theorem clean_is_single_pass (data : table) (locations : list text) :
  data !! LOCATION = Some (Str <$> locations) →
  is_Some (data !! OCCURRED) →
  is_Some (data !! REPORTED) →
  ∃ out, clean data = Some out ∧ clean_single_pass data = Some out.
Proof.
  intros Hloc [occurred Hocc] [reported Hrep].
  destruct (clean_spec data occurred reported locations Hocc Hrep Hloc)
    as [Hclean Hsingle].
  eexists. split; [exact Hclean|]. rewrite Hsingle. f_equal.
  set (bad_dates := flagged_from date_bad 0 occurred ++ flagged_from date_bad 0 reported).
  assert (∀ A (rows : list A),
    trim_rows (flagged_from row_flagged 0 (trim_rows bad_dates locations))
      (trim_rows bad_dates rows)
    = trim_rows (bad_dates ++ flagged_from row_flagged 0 locations) rows) as Htwice.
  { intros A rows. apply trim_rows_twice. intros i Hi.
    by apply flagged_trim_shift. }
  apply map_eq. intros key. rewrite !trim_indices_lookup.
  destruct (decide (key = LOCATION)) as [->|Hne].
  - rewrite !lookup_insert_eq. simpl. f_equal.
    by rewrite !trim_rows_fmap, Htwice.
  - rewrite !(lookup_insert_ne _ LOCATION) by done. rewrite trim_indices_lookup.
    destruct (_ !! key) as [rows|]; simpl; [|done]. by rewrite Htwice.
Qed.

(** * Further properties *)

(** ** More on the row filter *)

Lemma trim_from_ext_range {A} indices1 indices2 (rows : list A) n :
  (∀ i, n ≤ i < n + length rows → i ∈ indices1 ↔ i ∈ indices2) →
  trim_from n indices1 rows = trim_from n indices2 rows.
Proof.
  revert n. induction rows as [|x rows IH]; intros n Hset; cbn [trim_from]; [done|].
  cbn [length] in Hset.
  rewrite (bool_decide_ext (n ∈ indices1) (n ∈ indices2) (Hset n ltac:(lia))).
  rewrite (IH (S n)); [done|]. intros i Hi. apply Hset. lia.
Qed.

Lemma flagged_from_bound {A} (bad : A → bool) (l : list A) n i :
  i ∈ flagged_from bad n l → n ≤ i < n + length l.
Proof.
  rewrite elem_of_flagged_from. intros (Hle & x & Hx & _).
  apply lookup_lt_Some in Hx. lia.
Qed.

Lemma flagged_from_NoDup {A} (bad : A → bool) (l : list A) n :
  NoDup (flagged_from bad n l).
Proof.
  revert n. induction l as [|x l IH]; intros n; cbn [flagged_from]; [constructor|].
  destruct (bad x); [|done]. apply NoDup_cons. split; [|done].
  intros Hin%flagged_from_bound. lia.
Qed.

Lemma flagged_from_increasing {A} (bad : A → bool) (l : list A) n i j a b :
  flagged_from bad n l !! i = Some a →
  flagged_from bad n l !! j = Some b →
  i < j → a < b.
Proof.
  revert n i j. induction l as [|x l IH]; intros n i j; cbn [flagged_from]; [done|].
  destruct (bad x); [|by apply IH].
  destruct i as [|i], j as [|j]; try lia; cbn [lookup list_lookup].
  - intros [= <-] Hb _. apply list_elem_of_lookup_2, flagged_from_bound in Hb. lia.
  - intros Ha Hb Hij. apply (IH (S n) i j Ha Hb). lia.
Qed.

(** A filter pass with a duplicate-free list of in-range indices removes as
    many rows as the list is long. *)
Lemma trim_rows_length_NoDup {A} indices (rows : list A) :
  NoDup indices → (∀ i, i ∈ indices → i < length rows) →
  length (trim_rows indices rows) = length rows - length indices.
Proof.
  intros Hdup Hrange. pose proof (trim_from_length indices rows 0) as Hlen.
  assert (filter (λ i, i ∈ indices) (seq 0 (length rows)) ≡ₚ indices) as Hperm.
  { apply NoDup_Permutation; [apply NoDup_filter, NoDup_seq|done|].
    intros i. rewrite list_elem_of_filter, elem_of_seq.
    split; [tauto|]. intros Hi. apply Hrange in Hi as Hlt. split; [done|lia]. }
  rewrite Hperm in Hlen. unfold trim_rows. lia.
Qed.

(** X1. Indices at or beyond the length of the columns are ignored by the
    filter: no exception, and every column comes back unchanged. *)
Theorem trim_indices_out_of_range (data : table) (indices : list nat) :
  (∀ key col i, data !! key = Some col → i ∈ indices → length col ≤ i) →
  trim_indices data indices = data.
Proof.
  intros Hrange. rewrite trim_indices_fmap. apply map_eq. intros key.
  rewrite lookup_fmap. destruct (data !! key) as [col|] eqn:Hcol; [|done].
  simpl. f_equal. unfold trim_rows.
  rewrite (trim_from_ext_range indices [] col 0); [apply trim_from_nil|].
  intros i Hi. split; [|by intros ?%elem_of_nil].
  intros Hin. specialize (Hrange key col i Hcol Hin). lia.
Qed.

(** X2. A filter pass never adds or drops a column, and on a table whose six
    columns have [n] rows it gives a table whose six columns all have [n]
    minus the number of distinct in-range indices rows. *)
Theorem trim_indices_keeps_alignment (data : table) (indices : list nat) (n : nat) :
  aligned_at n data →
  dom (trim_indices data indices) = dom data
  ∧ aligned_at (n - flagged_count indices n) (trim_indices data indices).
Proof.
  intros Hal. split.
  - rewrite trim_indices_fmap. apply dom_fmap_L.
  - by apply trim_indices_aligned.
Qed.

(** ** More on the date validator *)

Lemma filter_eq_absent (l : list nat) (x : nat) :
  x ∉ l → length (filter (λ j, j = x) l) = 0.
Proof.
  induction l as [|y l IH]; [done|]. intros Hin.
  rewrite filter_cons, decide_False by (intros ->; apply Hin; by left).
  apply IH. intros ?. apply Hin. by right.
Qed.

Lemma filter_eq_NoDup (l : list nat) (x : nat) :
  NoDup l → x ∈ l → length (filter (λ j, j = x) l) = 1.
Proof.
  induction 1 as [|y l Hy Hdup IH]; [by intros ?%elem_of_nil|].
  rewrite filter_cons. intros [->|Hin]%elem_of_cons.
  - rewrite decide_True by done. simpl. by rewrite filter_eq_absent.
  - rewrite decide_False by (by intros ->). by apply IH.
Qed.

(** What the date loop stores for a cell is a year. *)
Lemma try_date_is_year (c year : cell) : try_date c = Some year → is_year year = true.
Proof.
  destruct c as [s|city state]; [|done]. cbn [try_date].
  destruct (Strptime.strptime s) as [[[y m] d]|] eqn:Hs; [|done]. intros [= <-].
  destruct (strptime_inv s y m d Hs) as [Hyear Hok].
  assert (1 ≤ y) as Hy.
  { unfold Strptime.date_ok in Hok. rewrite !andb_true_iff in Hok.
    destruct Hok as [[[[[Hy _] _] _] _] _]. by apply Nat.leb_le in Hy. }
  destruct (matches_re_Y_digits s)
    as [Hnone|(c1 & c2 & c3 & c4 & rest & -> & _ & H1 & H2 & H3 & H4)].
  - unfold Strptime.strptime, Strptime.format_matches in Hs. by rewrite Hnone in Hs.
  - change (Py.slice_to 4 (c1 :: c2 :: c3 :: c4 :: rest)) with [c1; c2; c3; c4] in *.
    cbn [is_year]. rewrite H1, H2, H3, H4, Hyear. cbn [andb]. by apply Nat.leb_le.
Qed.

(** X3. The index list of [column_to_date] is strictly increasing and within
    the column, and a cell that is not a string is flagged, not raised on. *)
Theorem column_to_date_indices (col : list cell) :
  (∀ i j a b,
     (column_to_date col).2 !! i = Some a →
     (column_to_date col).2 !! j = Some b → i < j → a < b)
  ∧ (∀ i, i ∈ (column_to_date col).2 → i < length col)
  ∧ (∀ i city state, col !! i = Some (Loc city state) → i ∈ (column_to_date col).2).
Proof.
  rewrite column_to_date_spec. cbn [snd]. split_and!.
  - intros i j a b. apply flagged_from_increasing.
  - intros i Hi%flagged_from_bound. lia.
  - intros i city state Hi. apply elem_of_flagged. by exists (Loc city state).
Qed.

(** X4. [transform_dates] raises exactly when one of the two date columns is
    missing from the dict (never because of what a cell holds); when it
    returns, the dict has the same columns and every column but the two date
    columns is untouched. *)
Theorem transform_dates_raises_iff (data : table) :
  (transform_dates data = None ↔ data !! OCCURRED = None ∨ data !! REPORTED = None)
  ∧ ∀ out bad, transform_dates data = Some (out, bad) →
      dom out = dom data
      ∧ ∀ key, key ≠ OCCURRED → key ≠ REPORTED → out !! key = data !! key.
Proof.
  split.
  - destruct (data !! OCCURRED) as [occurred|] eqn:Hocc;
      destruct (data !! REPORTED) as [reported|] eqn:Hrep.
    + rewrite (transform_dates_spec data occurred reported Hocc Hrep).
      split; [done|]. by intros [?|?].
    + unfold transform_dates. rewrite Hocc, Hrep. split; [by right|done].
    + unfold transform_dates. rewrite Hocc. split; [by left|done].
    + unfold transform_dates. rewrite Hocc. split; [by left|done].
  - intros out bad Hrun.
    apply transform_dates_inv in Hrun as (occurred & reported & Hocc & Hrep & -> & _).
    split.
    + rewrite dom_insert_lookup_L by (rewrite lookup_insert_ne by done; by eexists).
      apply dom_insert_lookup_L. by eexists.
    + intros key Hocc' Hrep'. by rewrite !lookup_insert_ne.
Qed.

(** X5. The index list [transform_dates] returns is the list of the first
    date column followed by the list of the second, duplicates kept: a row
    whose two dates are both rejected is listed twice, so the list is longer
    than the number of rows it removes. *)
Theorem transform_dates_lists_row_twice (data : table) (occurred reported : list cell)
    (i : nat) :
  data !! OCCURRED = Some occurred →
  data !! REPORTED = Some reported →
  (∃ c, occurred !! i = Some c ∧ try_date c = None) →
  (∃ c, reported !! i = Some c ∧ try_date c = None) →
  ∃ out bad,
    transform_dates data = Some (out, bad)
    ∧ bad = (column_to_date occurred).2 ++ (column_to_date reported).2
    ∧ length (filter (λ j, j = i) bad) = 2
    ∧ ¬ NoDup bad.
Proof.
  intros Hocc Hrep (c1 & Hc1 & Hbad1) (c2 & Hc2 & Hbad2).
  eexists _, _. rewrite (transform_dates_spec data occurred reported Hocc Hrep).
  rewrite !column_to_date_spec. cbn [snd].
  assert (i ∈ flagged_from date_bad 0 occurred) as Hin1.
  { apply elem_of_flagged. exists c1. unfold date_bad. by rewrite Hbad1. }
  assert (i ∈ flagged_from date_bad 0 reported) as Hin2.
  { apply elem_of_flagged. exists c2. unfold date_bad. by rewrite Hbad2. }
  split_and!; [done|done| |].
  - rewrite filter_app, length_app.
    rewrite !filter_eq_NoDup by (done || apply flagged_from_NoDup). done.
  - intros Hdup%NoDup_app. destruct Hdup as (_ & Hdisjoint & _).
    by apply (Hdisjoint i).
Qed.

(** X6. Every value [transform_dates] leaves in a date column is a text of
    exactly four characters, each a decimal digit of the database (an ASCII
    digit or a digit of another script: they are stored as written), that
    does not write the number 0. *)
Theorem transform_dates_years (data out : table) (bad : list nat) (key : string) :
  transform_dates data = Some (out, bad) →
  key = OCCURRED ∨ key = REPORTED →
  ∃ col, out !! key = Some col ∧ Forall (λ c, is_year c = true) col.
Proof.
  intros Hrun Hkey.
  apply transform_dates_inv in Hrun as (occurred & reported & Hocc & Hrep & -> & _).
  assert (∀ col : list cell, Forall (λ c, is_year c = true) (omap try_date col)) as Hyears.
  { intros col. apply Forall_forall. intros c (c0 & _ & Hc)%list_elem_of_omap.
    by eapply try_date_is_year. }
  destruct Hkey as [->| ->].
  - exists (omap try_date occurred). by rewrite lookup_insert_ne, lookup_insert_eq.
  - exists (omap try_date reported). by rewrite lookup_insert_eq.
Qed.

(** ** More on the location validator *)

Lemma locations_loop_Str (locations : list cell) n k st st' :
  foldl (λ st i, st ≫= λ st, transform_locations_step locations st i)
        (Some st) (seq k n) = Some st' →
  ∀ i, k ≤ i < k + n → ∃ row, locations !! i = Some (Str row).
Proof.
  revert k st. induction n as [|n IH]; intros k st; [intros _ i ?; lia|].
  cbn [seq foldl]. cbn [mbind option_bind].
  destruct (transform_locations_step locations st k) as [st1|] eqn:Hstep;
    [|by rewrite locations_loop_None].
  intros Hrest i Hi. destruct (decide (i = k)) as [->|Hne].
  - unfold transform_locations_step in Hstep. destruct st as [bad transformed].
    destruct (locations !! k) as [[row|city state]|]; [by exists row|done|done].
  - apply (IH (S k) st1 Hrest). lia.
Qed.

Lemma all_Str (l : list cell) :
  (∀ i, i < length l → ∃ row, l !! i = Some (Str row)) →
  ∃ rows : list text, l = Str <$> rows.
Proof.
  induction l as [|c l IH]; intros Hall; [by exists []|].
  destruct (Hall 0 ltac:(simpl; lia)) as [row [= ->]].
  destruct IH as [rows ->].
  { intros i Hi. apply (Hall (S i)). simpl. lia. }
  by exists (row :: rows).
Qed.

(** A filter pass with the indices a validator flagged keeps the rows it did
    not flag. *)
Lemma trim_flagged {A} (bad : A → bool) (l : list A) n :
  trim_from n (flagged_from bad n l) l = filter (λ x, bad x = false) l.
Proof.
  revert n. induction l as [|x l IH]; intros n; [done|].
  cbn [trim_from flagged_from]. rewrite filter_cons.
  destruct (bad x) eqn:Hx.
  - rewrite bool_decide_eq_true_2 by (by left). rewrite decide_False by done.
    rewrite <-(IH (S n)). apply trim_from_ext_range. intros i Hi.
    rewrite elem_of_cons. split; [|by right]. intros [->|?]; [lia|done].
  - rewrite bool_decide_eq_false_2 by (intros Hin%flagged_from_bound; lia).
    rewrite decide_True by done. by rewrite IH.
Qed.

Lemma row_value_recognized (row : text) :
  row_flagged row = false → is_us_location (row_value row) = true.
Proof.
  unfold row_flagged, row_value, is_us_location.
  destruct (Py.split COMMA row) as [|city [|state [|third others]]]; try done.
  intros Hok. apply bool_decide_eq_false in Hok. apply bool_decide_eq_true.
  by apply dec_stable.
Qed.

(** X7. [transform_locations] raises exactly when the dict has no location
    column or the column holds a cell that is not a string; on a column of
    strings, whatever they are, it returns. *)
Theorem transform_locations_raises_iff (data : table) :
  is_Some (transform_locations data)
  ↔ ∃ locations : list text, data !! LOCATION = Some (Str <$> locations).
Proof.
  split.
  - intros [[out bad] Hrun]. unfold transform_locations in Hrun.
    destruct (data !! LOCATION) as [locations|]; [|done].
    cbn [mbind option_bind] in Hrun.
    destruct (foldl _ _ _) as [st'|] eqn:Hloop; [|done].
    destruct (all_Str locations) as [rows ->]; [|by exists rows].
    intros i Hi. apply (locations_loop_Str _ _ _ _ _ Hloop). lia.
  - intros [locations Hloc]. rewrite (transform_locations_spec data locations Hloc).
    by eexists.
Qed.

(** A successful run was on a column of strings. *)
Lemma transform_locations_inv (data out : table) (bad : list nat) :
  transform_locations data = Some (out, bad) →
  ∃ locations : list text, data !! LOCATION = Some (Str <$> locations).
Proof.
  intros Hrun. unfold transform_locations in Hrun.
  destruct (data !! LOCATION) as [locations|]; [|done].
  cbn [mbind option_bind] in Hrun.
  destruct (foldl _ _ _) as [st'|] eqn:Hloop; [|done].
  destruct (all_Str locations) as [rows ->]; [|by exists rows].
  intros i Hi. apply (locations_loop_Str _ _ _ _ _ Hloop). lia.
Qed.

(** X8. [transform_locations] cannot be applied to its own result once a
    location had a comma: the record it stored is not a string and the second
    call raises.  When no location has a comma, the second call returns what
    the first returned. *)
Theorem transform_locations_twice (data out : table) (locations : list text)
    (bad : list nat) :
  data !! LOCATION = Some (Str <$> locations) →
  transform_locations data = Some (out, bad) →
  (Exists (λ row, 2 ≤ length (Py.split COMMA row)) locations →
     transform_locations out = None)
  ∧ (Forall (λ row, length (Py.split COMMA row) = 1) locations →
     transform_locations out = Some (out, bad)).
Proof.
  intros Hloc Hrun. rewrite (transform_locations_spec data locations Hloc) in Hrun.
  injection Hrun as <- <-. split.
  - intros (row & Hin & Hparts)%Exists_exists.
    destruct (transform_locations _) as [[out' bad']|] eqn:Hagain; [|done]. exfalso.
    destruct (transform_locations_inv _ _ _ Hagain) as [rows Hrows].
    rewrite lookup_insert_eq in Hrows. injection Hrows as Hrows.
    apply list_elem_of_lookup in Hin as [i Hi].
    apply (f_equal (.!! i)) in Hrows.
    rewrite !list_lookup_fmap, Hi in Hrows. simpl in Hrows.
    unfold row_value in Hrows.
    destruct (Py.split COMMA row) as [|city [|state others]]; simpl in Hparts; try lia.
    by destruct (rows !! i).
  - intros Hsingle.
    assert (row_value <$> locations = Str <$> locations) as Hsame.
    { apply list_fmap_ext. intros i row Hi.
      pose proof (proj1 (Forall_lookup _ _) Hsingle i row Hi) as Hone.
      unfold row_value. cbv beta in Hone.
      destruct (Py.split COMMA row) as [|single [|? ?]] eqn:Hsplit;
        simpl in Hone; [done| |lia].
      by rewrite (split_single _ _ _ Hsplit). }
    rewrite Hsame, (insert_id data LOCATION _ Hloc).
    by rewrite (transform_locations_spec data locations Hloc), Hsame, insert_id.
Qed.

(** X9. On a table whose six columns have [n] rows, a successful
    [transform_locations] keeps the columns and their [n] rows, leaves every
    column but the location column untouched, and returns a strictly
    increasing list of indices below [n]; the filter pass with that list
    removes exactly as many rows as the list is long (the number [main]
    logs). *)
Theorem transform_locations_keeps_columns (data out : table) (bad : list nat) (n : nat) :
  aligned_at n data →
  transform_locations data = Some (out, bad) →
  dom out = dom data
  ∧ aligned_at n out
  ∧ (∀ key, key ≠ LOCATION → out !! key = data !! key)
  ∧ (∀ i j a b, bad !! i = Some a → bad !! j = Some b → i < j → a < b)
  ∧ (∀ i, i ∈ bad → i < n)
  ∧ aligned_at (n - length bad) (trim_indices out bad).
Proof.
  intros Hal Hrun.
  destruct (transform_locations_inv data out bad Hrun) as [locations Hloc].
  assert (length locations = n) as Hn.
  { destruct (Hal LOCATION) as (col & Hcol & Hlen);
      [by apply (list_elem_of_lookup_2 column_names 2)|].
    rewrite Hloc in Hcol. injection Hcol as <-. by rewrite length_fmap in Hlen. }
  pose proof (transform_locations_aligned data out bad n Hal Hrun) as Hal_out.
  pose proof Hrun as Hrun'.
  rewrite (transform_locations_spec data locations Hloc) in Hrun'.
  injection Hrun' as Hout <-.
  assert (∀ i, i ∈ flagged_from row_flagged 0 locations → i < n) as Hrange.
  { intros i Hi%flagged_from_bound. lia. }
  split_and!.
  - rewrite <-Hout. apply dom_insert_lookup_L. by eexists.
  - done.
  - intros key Hkey. by apply (transform_locations_frame data out _ key Hrun).
  - intros i j a b. apply flagged_from_increasing.
  - done.
  - intros key Hkey. destruct (Hal_out key Hkey) as (rows & Hrows & Hlen).
    exists (trim_rows (flagged_from row_flagged 0 locations) rows).
    rewrite trim_indices_lookup, Hrows. split; [done|].
    rewrite trim_rows_length_NoDup; [lia|apply flagged_from_NoDup|].
    intros i Hi. rewrite Hlen. by apply Hrange.
Qed.

(** ** More on the clean-up as a whole *)

(** X10. After the clean-up of a table whose location column holds strings,
    every value of the location column is a city/state record whose state,
    uppercased and stripped, is one of the fifty abbreviations: no unsplit
    string and no unrecognized state is left. *)
Theorem clean_locations_recognized (data out : table) (locations : list text) :
  data !! LOCATION = Some (Str <$> locations) →
  clean data = Some out →
  ∃ col, out !! LOCATION = Some col ∧ Forall (λ c, is_us_location c = true) col.
Proof.
  intros Hloc Hrun.
  destruct (transform_dates data) as [[dated bad_dates]|] eqn:Hdates;
    [|by unfold clean in Hrun; rewrite Hdates in Hrun].
  apply transform_dates_inv in Hdates as (occurred & reported & Hocc & Hrep & _ & _).
  destruct (clean_spec data occurred reported locations Hocc Hrep Hloc) as [Hclean _].
  rewrite Hclean in Hrun. injection Hrun as <-.
  eexists. rewrite trim_indices_lookup, lookup_insert_eq. split; [done|].
  unfold trim_rows. rewrite trim_from_fmap, trim_flagged.
  apply Forall_fmap, Forall_forall. intros row [Hok _]%list_elem_of_filter.
  by apply row_value_recognized.
Qed.

(** X11. In every column that is neither a date column nor the location
    column, the clean-up removes the row of index [i] exactly when the
    occurrence date or the report date of row [i] is rejected or its location
    is flagged; the other rows are kept in order. *)
Theorem clean_keeps_valid_rows (data : table) (occurred reported : list cell)
    (locations : list text) (key : string) (col : list cell) :
  data !! OCCURRED = Some occurred →
  data !! REPORTED = Some reported →
  data !! LOCATION = Some (Str <$> locations) →
  key ≠ OCCURRED → key ≠ REPORTED → key ≠ LOCATION →
  data !! key = Some col →
  ∃ out removed,
    clean data = Some out
    ∧ out !! key = Some (trim_rows removed col)
    ∧ ∀ i, i ∈ removed ↔
        (∃ c, occurred !! i = Some c ∧ try_date c = None)
        ∨ (∃ c, reported !! i = Some c ∧ try_date c = None)
        ∨ (∃ row, locations !! i = Some row
                  ∧ (length (Py.split COMMA row) ≠ 2
                     ∨ ∃ second, Py.split COMMA row !! 1 = Some second
                                 ∧ Py.strip (upper second) ∉ states)).
Proof.
  intros Hocc Hrep Hloc Hk1 Hk2 Hk3 Hcol.
  destruct (clean_closed_form data occurred reported locations Hocc Hrep Hloc)
    as (out & Hclean & Hout).
  exists out, ((flagged_from date_bad 0 occurred ++ flagged_from date_bad 0 reported)
               ++ flagged_from row_flagged 0 locations).
  split_and!; [done| |].
  - rewrite Hout, trim_indices_lookup, !lookup_insert_ne by done. by rewrite Hcol.
  - intros i. rewrite !elem_of_app, !elem_of_flagged.
    assert (∀ c, date_bad c = true ↔ try_date c = None) as Hdate.
    { intros c. unfold date_bad. by destruct (try_date c). }
    setoid_rewrite Hdate. setoid_rewrite row_flagged_iff. tauto.
Qed.

(** ** More on the line parser and the loader *)

(** X12. [fix_long_description] raises [IndexError] exactly on a list of
    fewer than six tokens.  On six or more it returns exactly six fields: the
    first five tokens unchanged, and as sixth the stripped non-empty tokens
    from the sixth on, joined by two blanks (so a lone sixth token comes back
    stripped). *)
Theorem fix_long_description_bounds (tokens : list text) :
  (fix_long_description tokens = None ↔ length tokens < length column_names)
  ∧ ∀ fields, fix_long_description tokens = Some fields →
      length fields = length column_names
      ∧ take 5 fields = take 5 tokens
      ∧ fields !! 5
        = Some (Py.join "  " (filter (λ t, t ≠ []) (Py.strip <$> drop 5 tokens))).
Proof.
  destruct (decide (length column_names ≤ length tokens)) as [Hlen|Hlen].
  - rewrite (fix_long_description_ge tokens Hlen). split; [split; [done|lia]|].
    intros fields [= <-]. change (length column_names) with 6 in *.
    assert (length (take 5 tokens) = 5) as Htake by (rewrite length_take; lia).
    split_and!.
    + rewrite length_app, Htake. done.
    + by rewrite take_app_length' by done.
    + rewrite lookup_app_r by lia. by rewrite Htake.
  - split; [|intros fields Hsome; exfalso].
    + split; [lia|]. intros _. unfold fix_long_description.
      change (length column_names) with 6 in *. cbn [Nat.sub].
      by rewrite decide_False by lia.
    + unfold fix_long_description in Hsome.
      change (length column_names) with 6 in *. cbn [Nat.sub] in Hsome.
      by rewrite decide_False in Hsome by lia.
Qed.

#[local] Instance accepted_line_dec line : Decision (accepted_line line).
Proof. unfold accepted_line. apply _. Defined.

(** The first line that is not accepted, when there is one. *)
Lemma first_rejected (lines : list text) :
  ¬ Forall accepted_line lines →
  ∃ accepted bad_line rest,
    lines = accepted ++ bad_line :: rest
    ∧ Forall accepted_line accepted ∧ ¬ accepted_line bad_line.
Proof.
  induction lines as [|line lines IH]; intros Hnot; [by destruct Hnot|].
  destruct (decide (accepted_line line)) as [Hline|Hline].
  - destruct IH as (accepted & bad_line & rest & -> & Hacc & Hbad).
    { intros Hall. apply Hnot. by constructor. }
    exists (line :: accepted), bad_line, rest. split_and!; [done| |done].
    by constructor.
  - by exists [], line, lines.
Qed.

Lemma load_data_accepted (lines : list text) :
  Forall accepted_line lines →
  (load_data lines).2 = []
  ∧ ∀ j key, column_names !! j = Some key →
      length (column_of j lines) = length lines
      ∧ (load_data lines).1 !! key = Some (Str <$> column_of j lines).
Proof.
  intros Hacc.
  destruct (load_lines_accepted lines 0 empty_table Hacc empty_table_present)
    as (out & Hrun & _ & _ & Hout).
  unfold load_data. rewrite Hrun. cbn [fst snd]. split; [done|].
  intros j key Hj. destruct (Hout j key Hj) as [Hlen Hkey]. split; [done|].
  rewrite Hkey, empty_table_lookup; [done|]. by eapply list_elem_of_lookup_2.
Qed.

(** X13. [load_data] logs nothing exactly when every line of the file has at
    least six tab-separated tokens; the table it then returns has one row per
    line in each of the six columns. *)
Theorem load_data_clean_log (lines : list text) :
  ((load_data lines).2 = [] ↔ Forall accepted_line lines)
  ∧ (Forall accepted_line lines → aligned_at (length lines) (load_data lines).1).
Proof.
  split; [split|].
  - intros Hlog. destruct (decide (Forall accepted_line lines)) as [|Hnot]; [done|].
    destruct (first_rejected lines Hnot) as (accepted & bad_line & rest & -> & Hacc & Hbad).
    destruct (load_data_rejected accepted rest bad_line Hacc) as (? & _ & _ & _ & Hload).
    { unfold accepted_line in Hbad. lia. }
    by rewrite Hload in Hlog.
  - intros Hacc. by apply load_data_accepted.
  - intros Hacc key Hkey.
    destruct (proj1 (list_elem_of_lookup _ _) Hkey) as [j Hj].
    destruct (proj2 (load_data_accepted lines Hacc) j key Hj) as [Hlen Hcol].
    eexists. split; [exact Hcol|]. by rewrite length_fmap.
Qed.

Lemma split_free (sep : N) (s : text) :
  free_of sep s = true → Py.split sep s = [s].
Proof.
  unfold free_of. induction s as [|c s IH]; [done|]. cbn [forallb Py.split].
  intros [Hc Hs]%andb_prop. apply negb_true_iff in Hc. rewrite Hc.
  by rewrite (IH Hs).
Qed.

Lemma split_app_sep (sep : N) (s t : text) :
  free_of sep s = true →
  Py.split sep (s ++ sep :: t) = s :: Py.split sep t.
Proof.
  unfold free_of. induction s as [|c s IH]; simpl.
  - intros _. by rewrite N.eqb_refl.
  - intros [Hc Hs]%andb_prop. apply negb_true_iff in Hc. rewrite Hc.
    by rewrite (IH Hs).
Qed.

(** Splitting on the separator undoes joining fields that are free of it. *)
Lemma split_join (sep : N) (fields : list text) :
  fields ≠ [] →
  Forall (λ f, free_of sep f = true) fields →
  Py.split sep (Py.join [sep] fields) = fields.
Proof.
  intros Hne Hfree. induction Hfree as [|f fields Hf Hfree IH]; [done|].
  destruct fields as [|g fields].
  - by apply split_free.
  - change (Py.join [sep] (f :: g :: fields))
      with (f ++ sep :: Py.join [sep] (g :: fields)).
    rewrite (split_app_sep sep f _ Hf). f_equal. by apply IH.
Qed.

Lemma fields_of_tabbed (fields : list text) :
  plain_row fields → fields_of (tabbed fields) = fields.
Proof.
  intros [Hlen Hfree]. unfold fields_of, tabbed.
  rewrite split_join; [|by intros ->|done].
  by rewrite decide_False by lia.
Qed.

(** X14. Writing rows of six tab-free fields as tab-joined lines and loading
    them gives the fields back: nothing is logged, and column [j] of the
    table holds field [j] of every row, in order and unchanged (line break
    included, when a last field ends in one). *)
Theorem load_data_plain_rows (rows : list (list text)) :
  Forall plain_row rows →
  (load_data (tabbed <$> rows)).2 = []
  ∧ ∀ j key, column_names !! j = Some key →
      ∃ fields,
        omap (.!! j) rows = fields
        ∧ length fields = length rows
        ∧ (load_data (tabbed <$> rows)).1 !! key = Some (Str <$> fields).
Proof.
  intros Hrows.
  assert (Forall accepted_line (tabbed <$> rows)) as Hacc.
  { apply Forall_fmap. eapply Forall_impl; [exact Hrows|].
    intros fields Hplain. unfold accepted_line. cbn [compose].
    pose proof (fields_of_tabbed fields Hplain) as Hfields.
    unfold fields_of in Hfields. destruct Hplain as [Hlen _].
    case_decide as Hmore; [lia|]. rewrite Hfields. lia. }
  destruct (load_data_accepted _ Hacc) as [Hlog Hcols]. split; [done|].
  intros j key Hj. destruct (Hcols j key Hj) as [Hlen Hcol].
  assert (column_of j (tabbed <$> rows) = omap (.!! j) rows) as Hsame.
  { unfold column_of. clear Hacc Hlog Hcols Hlen Hcol.
    induction Hrows as [|fields rows Hplain Hrows IH]; [done|].
    rewrite fmap_cons. cbn [omap list_omap]. by rewrite (fields_of_tabbed _ Hplain), IH. }
  exists (omap (.!! j) rows). rewrite <-Hsame.
  split_and!; [done| |done]. by rewrite Hlen, length_fmap.
Qed.

(** ** [main] *)

(** X15. Whatever the lines of the file, [main] runs to its end without an
    exception of its own (reading the file and the plotting library are
    outside the model): after the records of the loader it logs its seven
    messages in order, and it plots a scatter trace and a histogram of one
    and the same list, the occurrence column of the cleaned table; the
    scatter plots that list against the positions [0, 1, ..], and every value
    plotted is a text of four decimal digits of the database that does not
    write the number 0. *)
Theorem main_runs (lines : list text) :
  ∃ bad_date_indices bad_location_indices years,
    main lines
    = ((Loader <$> (load_data lines).2)
       ++ [Info "transforming dates";
           Info "trimming bad dates";
           indices_to_remove bad_date_indices;
           Info "transforming locations";
           Info "trimming bad locations";
           indices_to_remove bad_location_indices;
           Info (ln "Done with cleanup")],
       Some [[Scatter (seq 0 (length years)) years "markers"]; [Histogram years]])
    ∧ clean (load_data lines).1 ≫= (.!! OCCURRED) = Some years
    ∧ Forall (λ c, is_year c = true) years.
Proof.
  pose proof (load_data_raw lines) as Hraw. unfold main.
  destruct (load_data lines) as [data loader_log]. cbn [fst snd] in *.
  destruct (Hraw OCCURRED) as [occurred Hocc]; [apply elem_of_cons; by left|].
  destruct (Hraw REPORTED) as [reported Hrep];
    [by apply (list_elem_of_lookup_2 column_names 1)|].
  destruct (Hraw LOCATION) as [locations Hloc];
    [by apply (list_elem_of_lookup_2 column_names 2)|].
  destruct (clean_spec data _ _ locations Hocc Hrep Hloc) as [Hclean _].
  rewrite (transform_dates_spec data _ _ Hocc Hrep).
  set (bad_dates := flagged_from date_bad 0 (Str <$> occurred)
                    ++ flagged_from date_bad 0 (Str <$> reported)) in *.
  set (dated := <[REPORTED := omap try_date (Str <$> reported)]>
                  (<[OCCURRED := omap try_date (Str <$> occurred)]> data)) in *.
  assert (dated !! OCCURRED = Some (omap try_date (Str <$> occurred))) as Hdated_occ.
  { unfold dated. by rewrite lookup_insert_ne, lookup_insert_eq. }
  assert (trim_indices dated bad_dates !! LOCATION
          = Some (Str <$> trim_rows bad_dates locations)) as Htrimmed.
  { rewrite trim_indices_lookup. unfold dated.
    by rewrite !lookup_insert_ne, Hloc, <-trim_rows_fmap. }
  rewrite (transform_locations_spec _ _ Htrimmed).
  set (bad_locations := flagged_from row_flagged 0 (trim_rows bad_dates locations)) in *.
  set (years := trim_rows bad_locations
                  (trim_rows bad_dates (omap try_date (Str <$> occurred)))).
  assert (trim_indices
            (<[LOCATION := row_value <$> trim_rows bad_dates locations]>
               (trim_indices dated bad_dates)) bad_locations !! OCCURRED
          = Some years) as Hyears.
  { rewrite trim_indices_lookup, lookup_insert_ne by done.
    by rewrite trim_indices_lookup, Hdated_occ. }
  exists bad_dates, bad_locations, years.
  unfold graph_scatter, graph_histogram, graph_occurrences.
  rewrite Hyears. cbn [mbind option_bind]. split_and!.
  - by rewrite <-!app_assoc.
  - rewrite Hclean. cbn [mbind option_bind]. exact Hyears.
  - apply Forall_forall. intros c Hc.
    do 2 apply elem_of_trim_rows in Hc.
    apply list_elem_of_omap in Hc as (c0 & _ & Hc). by eapply try_date_is_year.
Qed.

(** ** When the clean-up keeps the table aligned *)

Lemma trim_indices_aligned_NoDup (data : table) indices n :
  aligned_at n data → NoDup indices → (∀ i, i ∈ indices → i < n) →
  aligned_at (n - length indices) (trim_indices data indices).
Proof.
  intros Hal Hdup Hrange key Hkey. destruct (Hal key Hkey) as (rows & Hrows & Hlen).
  exists (trim_rows indices rows). rewrite trim_indices_lookup, Hrows. split; [done|].
  rewrite trim_rows_length_NoDup; [lia|done|]. intros i Hi. rewrite Hlen. by apply Hrange.
Qed.

Lemma date_column_all_valid (col : list cell) :
  Forall (λ c, is_Some (try_date c)) col →
  length (omap try_date col) = length col ∧ flagged_from date_bad 0 col = [].
Proof.
  generalize 0. induction 1 as [|c col [year Hc] Hcol IH]; [done|].
  cbn [omap list_omap flagged_from]. unfold date_bad at 1. rewrite Hc.
  destruct IH as [IH1 IH2]. split; [simpl; by rewrite IH1|].
  clear IH1 IH2. revert n. induction Hcol as [|c' col' [year' Hc'] Hcol' IH']; intros n; [done|].
  cbn [flagged_from]. unfold date_bad at 1. rewrite Hc'. apply IH'.
Qed.

(** X16. When every cell of the two date columns is accepted, the clean-up
    of a table with [n] rows in each column and strings as locations keeps
    the table aligned: all six columns of the transformed table (years,
    years, stored locations, the rest unchanged) are filtered with one and
    the same list, the flagged locations, and each ends with [n] minus the
    number of flagged locations rows. *)
Theorem clean_aligned_when_dates_valid (data : table) (occurred reported : list cell)
    (locations : list text) (n : nat) :
  aligned_at n data →
  data !! OCCURRED = Some occurred →
  data !! REPORTED = Some reported →
  data !! LOCATION = Some (Str <$> locations) →
  Forall (λ c, is_Some (try_date c)) occurred →
  Forall (λ c, is_Some (try_date c)) reported →
  ∃ out,
    clean data = Some out
    ∧ out = trim_indices
              (<[LOCATION := row_value <$> locations]>
                 (<[REPORTED := omap try_date reported]>
                    (<[OCCURRED := omap try_date occurred]> data)))
              (flagged_from row_flagged 0 locations)
    ∧ aligned_at (n - length (flagged_from row_flagged 0 locations)) out.
Proof.
  intros Hal Hocc Hrep Hloc Hocc_ok Hrep_ok.
  destruct (clean_closed_form data occurred reported locations Hocc Hrep Hloc)
    as (out & Hclean & Hout).
  destruct (date_column_all_valid occurred Hocc_ok) as [Hocc_len Hocc_bad].
  destruct (date_column_all_valid reported Hrep_ok) as [Hrep_len Hrep_bad].
  rewrite Hocc_bad, Hrep_bad in Hout. cbn [app] in Hout.
  exists out. split_and!; [done..|]. rewrite Hout.
  assert (∀ key rows, key ∈ column_names → data !! key = Some rows → length rows = n)
    as Hlen.
  { intros key rows Hkey Hrows. destruct (Hal key Hkey) as (rows' & Hrows' & Hn).
    congruence. }
  assert (length locations = n) as Hloc_len.
  { rewrite <-(Hlen LOCATION _ (list_elem_of_lookup_2 column_names 2 _ eq_refl) Hloc).
    by rewrite length_fmap. }
  apply trim_indices_aligned_NoDup; [|apply flagged_from_NoDup|].
  - intros key Hkey.
    destruct (decide (key = LOCATION)) as [->|Hk3].
    { eexists. rewrite lookup_insert_eq. split; [done|]. by rewrite length_fmap. }
    rewrite lookup_insert_ne by done.
    destruct (decide (key = REPORTED)) as [->|Hk2].
    { eexists. rewrite lookup_insert_eq. split; [done|]. rewrite Hrep_len.
      by apply (Hlen REPORTED). }
    rewrite lookup_insert_ne by done.
    destruct (decide (key = OCCURRED)) as [->|Hk1].
    { eexists. rewrite lookup_insert_eq. split; [done|]. rewrite Hocc_len.
      by apply (Hlen OCCURRED). }
    rewrite lookup_insert_ne by done. by apply Hal.
  - intros i Hi%flagged_from_bound. lia.
Qed.

(** ** No tab survives loading *)

(** The parts of a split hold no separator. *)
Lemma split_parts_free (sep : N) (s : text) :
  Forall (λ part, free_of sep part = true) (Py.split sep s).
Proof.
  unfold free_of. induction s as [|c s IH]; simpl; [by repeat constructor|].
  destruct (c =? sep)%N eqn:Hc; [by constructor|].
  destruct (Py.split sep s) as [|w ws]; [repeat constructor; simpl; by rewrite Hc|].
  apply Forall_cons in IH as [Hw Hws]. constructor; [|done]. simpl. by rewrite Hc, Hw.
Qed.

Lemma fields_of_free (line : text) :
  Forall (λ field, free_of TAB field = true) (fields_of line).
Proof.
  pose proof (split_parts_free TAB line) as Hparts. unfold fields_of.
  case_decide; [|done]. apply Forall_app. split; [by apply Forall_take|].
  repeat constructor. apply join_all; [done|].
  apply Forall_forall. intros token [_ Hin]%list_elem_of_filter.
  apply list_elem_of_fmap in Hin as (part & -> & Hin). apply strip_all.
  by apply (proj1 (Forall_forall _ _) (Forall_drop _ 5 _ Hparts)).
Qed.

Lemma load_line_tab_free (line : text) (data : table) :
  tab_free_table data → tab_free_table (load_line line data).1.
Proof.
  intros Hfree key Hkey.
  assert (columns_present data) as Hpresent.
  { intros k Hk. destruct (Hfree k Hk) as (vals & -> & _). by eexists. }
  destruct (Hfree key Hkey) as (vals & Hvals & Hvals_free).
  destruct (proj1 (list_elem_of_lookup _ _) Hkey) as [j Hj].
  destruct (decide (length column_names ≤ length (Py.split TAB line))) as [Hlen|Hlen].
  - destruct (load_line_accepted line data Hlen Hpresent) as (out & -> & _ & Hout).
    destruct (Hout j key Hj) as (val & Hval & Hkey_out).
    exists (vals ++ [val]). cbn [fst]. rewrite Hkey_out, Hvals, fmap_app.
    split; [done|]. apply Forall_app. split; [done|]. repeat constructor.
    apply (proj1 (Forall_lookup _ _) (fields_of_free line) j val Hval).
  - destruct (load_line_rejected line data ltac:(lia) Hpresent) as (out & -> & Hout).
    cbn [fst]. rewrite (Hout j key Hj), Hvals. simpl.
    destruct (Py.split TAB line !! j) as [val|] eqn:Hval.
    + exists (vals ++ [val]). rewrite fmap_app. split; [done|].
      apply Forall_app. split; [done|]. repeat constructor.
      apply (proj1 (Forall_lookup _ _) (split_parts_free TAB line) j val Hval).
    + exists vals. by rewrite app_nil_r.
Qed.

Lemma load_lines_tab_free (lines : list text) line_num (data : table) :
  tab_free_table data → tab_free_table (load_lines lines line_num data).1.1.
Proof.
  revert line_num data. induction lines as [|line lines IH]; intros line_num data Hfree.
  - done.
  - cbn [load_lines]. pose proof (load_line_tab_free line data Hfree) as Hline.
    destruct (load_line line data) as [out [e|]]; [done|]. by apply IH.
Qed.

(** X17. Whatever the file, no value of the six columns of the loaded table
    holds a tab: every value is a string, the tokens are cut at the tabs, and
    the tabs inside a long description are replaced when its parts are
    joined. *)
Theorem load_data_no_tab (lines : list text) (key : string) (col : list cell)
    (c : cell) :
  key ∈ column_names →
  (load_data lines).1 !! key = Some col →
  c ∈ col →
  ∃ s, c = Str s ∧ free_of TAB s = true.
Proof.
  intros Hkey Hcol Hc.
  assert (tab_free_table (load_data lines).1) as Hfree.
  { unfold load_data.
    pose proof (load_lines_tab_free lines 0 empty_table) as Hlines.
    destruct (load_lines lines 0 empty_table) as [[data line_num] raised].
    apply Hlines. intros k Hk. exists []. by rewrite empty_table_lookup. }
  destruct (Hfree key Hkey) as (vals & Hvals & Hvals_free).
  rewrite Hvals in Hcol. injection Hcol as <-.
  apply list_elem_of_fmap in Hc as (s & -> & Hs).
  exists s. split; [done|]. by apply (proj1 (Forall_forall _ _) Hvals_free).
Qed.

End properties.

(** * Instances of the theorems

    The theorems above hold for every Unicode database.  Below they are
    applied to sample inputs, which are ASCII texts, and the pipeline is run
    with the ASCII database, which satisfies the laws. *)

#[local] Instance ascii_laws : AsciiLaws ascii_unicode.
Proof. by split. Qed.

(** So does the database that knows the Arabic-Indic digits as well. *)
Lemma arabic_laws : AsciiLaws arabic_unicode.
Proof.
  split; [|done]. intros c Hc. cbn [decimal arabic_unicode].
  destruct ((0x660 <=? c) && (c <=? 0x669))%N eqn:Hrange; [|done].
  apply andb_prop in Hrange as [?%N.leb_le _]. lia.
Qed.

(** On a table whose date and location columns hold ASCII strings, the
    clean-up with any database is the clean-up with the ASCII database. *)
Lemma clean_ascii {U : Unicode} {L : AsciiLaws U} (data : table)
    (occurred reported : list cell) (locations : list text) :
  data !! OCCURRED = Some occurred →
  data !! REPORTED = Some reported →
  data !! LOCATION = Some (Str <$> locations) →
  forallb ascii_cell occurred = true →
  forallb ascii_cell reported = true →
  forallb Py.isascii locations = true →
  clean (U := U) data = clean (U := ascii_unicode) data.
Proof.
  intros Hocc Hrep Hloc Hocc_ascii Hrep_ascii Hloc_ascii.
  destruct (clean_closed_form (U := U) data _ _ _ Hocc Hrep Hloc) as (out & -> & ->).
  destruct (clean_closed_form (U := ascii_unicode) data _ _ _ Hocc Hrep Hloc)
    as (out' & -> & ->).
  rewrite (omap_try_date_ascii (U := U) occurred Hocc_ascii).
  rewrite (omap_try_date_ascii (U := U) reported Hrep_ascii).
  rewrite (flagged_date_ascii (U := U) occurred 0 Hocc_ascii).
  rewrite (flagged_date_ascii (U := U) reported 0 Hrep_ascii).
  by rewrite (flagged_row_ascii (U := U) locations 0 Hloc_ascii).
Qed.

#[local] Existing Instance ascii_unicode.

(** ** The claims *)

Lemma trim_indices_filter_witness :
  sample_rows !! "location"
    = Some [Str "Ithaca, NY"; Str "Ithaca"; Str "Paris, France"]
  ∧ ∃ out,
      trim_indices sample_rows [2; 1; 1; 7] !! "location" = Some out
      ∧ length out = 3 - flagged_count [2; 1; 1; 7] 3
      ∧ sublist out [Str "Ithaca, NY"; Str "Ithaca"; Str "Paris, France"]
      ∧ (∀ i, i ∉ [2; 1; 1; 7] →
           out !! kept_before [2; 1; 1; 7] i
           = [Str "Ithaca, NY"; Str "Ithaca"; Str "Paris, France"] !! i)
      ∧ (∀ indices', (∀ i, i ∈ indices' ↔ i ∈ [2; 1; 1; 7]) →
           trim_indices sample_rows indices' = trim_indices sample_rows [2; 1; 1; 7]).
Proof.
  split; [vm_compute; reflexivity|].
  apply (trim_indices_filter sample_rows [2; 1; 1; 7] "location"
           [Str "Ithaca, NY"; Str "Ithaca"; Str "Paris, France"]).
  vm_compute; reflexivity.
Defined.

Lemma transform_locations_validates_witness :
  (AsciiLaws ascii_unicode
   ∧ sample_locations !! LOCATION
     = Some (Str <$> [txt "Ithaca, NY"; txt "Ithaca, Ontario"; txt "Ithaca";
                      txt "Springfield, IL, USA"]))
  ∧ (∃ out bad transformed,
       transform_locations sample_locations = Some (out, bad)
       ∧ out !! LOCATION = Some transformed
       ∧ length transformed = 4)
  ∧ transform_locations
      {[ LOCATION := [Str "Ithaca, NY"; Str "Ithaca, Ontario"; Str "Ithaca";
                      Str "Ithaca,ny "] ]}
    = Some ({[ LOCATION := [Loc "Ithaca" " NY"; Loc "Ithaca" " Ontario";
                            Str "Ithaca"; Loc "Ithaca" "ny "] ]},
            [1; 2]).
Proof.
  split; [split; [exact ascii_laws | vm_compute; reflexivity]|]. split.
  - destruct (proj1 (proj2 (transform_locations_validates (L := ascii_laws)))
                sample_locations
                [txt "Ithaca, NY"; txt "Ithaca, Ontario"; txt "Ithaca";
                 txt "Springfield, IL, USA"])
      as (out & bad & transformed & Hrun & Hcol & Hlen & _).
    + vm_compute; reflexivity.
    + exists out, bad, transformed. split_and!; assumption.
  - apply (proj1 (proj2 (proj2 (transform_locations_validates (L := ascii_laws))))).
Defined.

Lemma transform_locations_many_parts_witness :
  (sample_locations !! LOCATION
     = Some (Str <$> [txt "Ithaca, NY"; txt "Ithaca, Ontario"; txt "Ithaca";
                      txt "Springfield, IL, USA"])
   ∧ [txt "Ithaca, NY"; txt "Ithaca, Ontario"; txt "Ithaca";
      txt "Springfield, IL, USA"] !! 3
     = Some (txt "Springfield, IL, USA")
   ∧ 3 ≤ length (Py.split COMMA "Springfield, IL, USA"))
  ∧ ∃ out bad transformed city state others,
      transform_locations sample_locations = Some (out, bad)
      ∧ out !! LOCATION = Some transformed
      ∧ Py.split COMMA "Springfield, IL, USA" = city :: state :: others
      ∧ 3 ∈ bad
      ∧ transformed !! 3 = Some (Loc city state)
      ∧ transformed !! 3 ≠ Some (Str "Springfield, IL, USA").
Proof.
  split.
  - split_and!; [vm_compute; reflexivity | reflexivity | vm_compute; lia].
  - apply (transform_locations_many_parts sample_locations
             [txt "Ithaca, NY"; txt "Ithaca, Ontario"; txt "Ithaca";
              txt "Springfield, IL, USA"]).
    + vm_compute; reflexivity.
    + reflexivity.
    + vm_compute; lia.
Defined.

Lemma column_to_date_validates_witness :
  (AsciiLaws ascii_unicode
   ∧ Strptime.strptime "19870604" = Some (1987, 6, 4)
   ∧ Strptime.int (Py.slice_to 4 "19870604") = Some 1987)
  ∧ ([Str "1987-06-04"; Str "19870604"] !! 0 = Some (Str "1987-06-04")
   ∧ 0 ∈ (column_to_date [Str "1987-06-04"; Str "19870604"]).2)
  ∧ ((OCCURRED = OCCURRED ∨ OCCURRED = REPORTED)
   ∧ clean sample_dates
     = Some {[ "date_occurred" := [];
               "date_reported" := [Str "1987"];
               "location" := [Loc "Ithaca" " NY"] ]})
  ∧ (∃ col, ({[ "date_occurred" := [];
                "date_reported" := [Str "1987"];
                "location" := [Loc "Ithaca" " NY"] ]} : table) !! OCCURRED = Some col
            ∧ Str "1987-06-04" ∉ col)
  ∧ (AsciiLaws arabic_unicode
     ∧ ∀ c, (0x660 ≤ c ≤ 0x669)%N →
            decimal (Unicode := arabic_unicode) c = Some (N.to_nat (c - 0x660)))
  ∧ column_to_date (U := arabic_unicode)
      [Str ([0x661; 0x669; 0x668; 0x667]%N ++ "0604");
       Str [0x661; 0x669; 0x668; 0x667; 0x660; 0x666; 0x660; 0x664]%N]
    = ([Str [0x661; 0x669; 0x668; 0x667]%N], [1]).
Proof.
  assert (∀ c, (0x660 ≤ c ≤ 0x669)%N →
            decimal (Unicode := arabic_unicode) c = Some (N.to_nat (c - 0x660)))
    as Harabic.
  { intros c [Hlo Hhi]. cbn [decimal arabic_unicode].
    apply N.leb_le in Hlo. apply N.leb_le in Hhi. by rewrite Hlo, Hhi. }
  split_and!.
  - exact ascii_laws.
  - vm_compute; reflexivity.
  - apply (proj1 (proj2 (column_to_date_validates (L := ascii_laws))) "19870604" 1987 6 4).
    vm_compute; reflexivity.
  - reflexivity.
  - apply (proj1 (proj2 (proj2 (proj2 (column_to_date_validates (L := ascii_laws)))))
             [Str "1987-06-04"; Str "19870604"] 0).
    reflexivity.
  - by left.
  - vm_compute; reflexivity.
  - apply (proj1 (proj2 (proj2 (proj2 (proj2
             (column_to_date_validates (L := ascii_laws)))))) sample_dates).
    + by left.
    + vm_compute; reflexivity.
  - exact arabic_laws.
  - exact Harabic.
  - apply (proj2 (proj2 (proj2 (proj2 (proj2
             (column_to_date_validates (L := arabic_laws)))))) Harabic).
Defined.

Lemma transform_dates_breaks_alignment_witness :
  AsciiLaws ascii_unicode
  ∧ aligned_at 1 misdated_row
  ∧ column_to_date [Str "1987-06-04"] = ([], [0])
  ∧ ∃ out,
      transform_dates misdated_row = Some (out, [0])
      ∧ out !! OCCURRED = Some []
      ∧ out !! REPORTED = Some [Str "1987"]
      ∧ out !! LOCATION = Some [Str "Ithaca, NY"]
      ∧ ¬ aligned out.
Proof.
  split; [exact ascii_laws|].
  apply (proj2 (transform_dates_breaks_alignment (L := ascii_laws))).
Defined.

Lemma load_line_reconciles_witness :
  (length column_names < length (Py.split TAB tabbed_sighting)
   ∧ columns_present empty_table)
  ∧ ∃ out,
      load_line tabbed_sighting empty_table = (out, None)
      ∧ ∀ j key, column_names !! j = Some key →
          ∃ val,
            (take 5 (Py.split TAB tabbed_sighting)
             ++ [Py.join "  " (filter (λ t, t ≠ [])
                                 (Py.strip <$> drop 5 (Py.split TAB tabbed_sighting)))])
              !! j = Some val
            ∧ out !! key = (λ rows, rows ++ [Str val]) <$> empty_table !! key.
Proof.
  split.
  - split; [vm_compute; lia | apply empty_table_present].
  - apply (proj1 load_line_reconciles tabbed_sighting empty_table).
    + vm_compute; lia.
    + apply empty_table_present.
Defined.

Lemma load_data_partial_table_witness :
  (Forall accepted_line (replicate 4 tabbed_sighting)
   ∧ length (Py.split TAB short_line) < length column_names)
  ∧ ∃ before,
      load_data (replicate 4 tabbed_sighting) = (before, [])
      ∧ (∀ j key, column_names !! j = Some key →
           ∃ rows,
             before !! key = Some rows
             ∧ rows = Str <$> column_of j (replicate 4 tabbed_sighting)
             ∧ length rows = length (replicate 4 tabbed_sighting)
             ∧ (load_data file_with_short_line).1 !! key
               = Some (rows ++ match Py.split TAB short_line !! j with
                               | Some val => [Str val]
                               | None => []
                               end))
      ∧ ¬ aligned (load_data file_with_short_line).1.
Proof.
  assert (Forall accepted_line (replicate 4 tabbed_sighting)) as Hacc.
  { apply Forall_replicate. unfold accepted_line. vm_compute. lia. }
  assert (length (Py.split TAB short_line) < length column_names) as Hbad.
  { vm_compute. lia. }
  split; [by split|].
  apply (load_data_partial_table (replicate 4 tabbed_sighting)
           (replicate 5 tabbed_sighting) short_line Hacc Hbad).
Defined.

(** C6 as stated fails: on the ten-line file whose fifth line has two tokens,
    the table that comes back has five values in the first column and four in
    the last. *)
Lemma load_data_mismatched_columns :
  length (Py.split TAB short_line) < length column_names
  ∧ length <$> (load_data file_with_short_line).1 !! OCCURRED = Some 5
  ∧ length <$> (load_data file_with_short_line).1 !! LONG_DESCRIPTION = Some 4
  ∧ ¬ aligned (load_data file_with_short_line).1.
Proof.
  assert (length <$> (load_data file_with_short_line).1 !! OCCURRED = Some 5)
    as Hfirst by (vm_compute; reflexivity).
  assert (length <$> (load_data file_with_short_line).1 !! LONG_DESCRIPTION = Some 4)
    as Hlast by (vm_compute; reflexivity).
  split_and!; [vm_compute; lia|done|done|].
  intros [n Hal].
  destruct (Hal OCCURRED) as (first & Hf & Hf_len); [apply elem_of_cons; by left|].
  destruct (Hal LONG_DESCRIPTION) as (last & Hl & Hl_len);
    [by apply (list_elem_of_lookup_2 column_names 5)|].
  rewrite Hf in Hfirst. rewrite Hl in Hlast.
  simpl in Hfirst, Hlast. injection Hfirst as Hfirst. injection Hlast as Hlast. lia.
Qed.

Lemma load_data_absorbs_error_witness :
  (Forall accepted_line (replicate 4 tabbed_sighting)
   ∧ length (Py.split TAB short_line) < length column_names)
  ∧ ∃ before partial,
      load_data (replicate 4 tabbed_sighting) = (before, [])
      ∧ load_line short_line before = (partial, Some IndexError)
      ∧ load_data file_with_short_line
        = (partial,
           [LogError (Text ("Found error on line number "
                            ++ Py.str (length (replicate 4 tabbed_sighting))));
            LogError (ExcType IndexError);
            LogError (ExcValue IndexError);
            LogError PyNone])
      ∧ is_Some (clean partial).
Proof.
  assert (Forall accepted_line (replicate 4 tabbed_sighting)) as Hacc.
  { apply Forall_replicate. unfold accepted_line. vm_compute. lia. }
  assert (length (Py.split TAB short_line) < length column_names) as Hbad.
  { vm_compute. lia. }
  split; [by split|].
  apply (load_data_absorbs_error (replicate 4 tabbed_sighting)
           (replicate 5 tabbed_sighting) short_line Hacc Hbad).
Defined.

(** C7 as stated fails: the short line is the fifth line of the file, and the
    message logged names line 4; no message names line 5. *)
Lemma load_data_logs_lines_from_zero :
  Forall accepted_line (take 4 file_with_short_line)
  ∧ file_with_short_line !! 4 = Some short_line
  ∧ length (Py.split TAB short_line) < length column_names
  ∧ (load_data file_with_short_line).2
    = [LogError (Text "Found error on line number 4");
       LogError (ExcType IndexError);
       LogError (ExcValue IndexError);
       LogError PyNone]
  ∧ LogError (Text ("Found error on line number " ++ Py.str 5))
    ∉ (load_data file_with_short_line).2.
Proof.
  assert ((load_data file_with_short_line).2
          = [LogError (Text "Found error on line number 4");
             LogError (ExcType IndexError);
             LogError (ExcValue IndexError);
             LogError PyNone]) as Hlog by (vm_compute; reflexivity).
  split_and!.
  - apply (Forall_replicate accepted_line 4 tabbed_sighting).
    unfold accepted_line. vm_compute. lia.
  - reflexivity.
  - vm_compute. lia.
  - exact Hlog.
  - rewrite Hlog. intros Hin.
    repeat (apply elem_of_cons in Hin as [Hin|Hin]; [by vm_compute in Hin|]).
    by apply elem_of_nil in Hin.
Qed.

Lemma clean_is_single_pass_witness :
  (two_flagged_rows !! LOCATION
     = Some (Str <$> [txt "Ithaca, NY"; txt "Ithaca"; txt "Austin, TX"])
   ∧ is_Some (two_flagged_rows !! OCCURRED)
   ∧ is_Some (two_flagged_rows !! REPORTED))
  ∧ ∃ out, clean two_flagged_rows = Some out
           ∧ clean_single_pass two_flagged_rows = Some out.
Proof.
  assert (two_flagged_rows !! LOCATION
          = Some (Str <$> [txt "Ithaca, NY"; txt "Ithaca"; txt "Austin, TX"])) as Hloc
    by (vm_compute; reflexivity).
  assert (is_Some (two_flagged_rows !! OCCURRED)) as Hocc
    by (eexists; vm_compute; reflexivity).
  assert (is_Some (two_flagged_rows !! REPORTED)) as Hrep
    by (eexists; vm_compute; reflexivity).
  split; [by split_and!|].
  apply (clean_is_single_pass two_flagged_rows _ Hloc Hocc Hrep).
Defined.

(** ** The further properties *)

Lemma trim_indices_out_of_range_witness :
  (∀ key col i, sample_rows !! key = Some col → i ∈ [3; 7; 3] → length col ≤ i)
  ∧ trim_indices sample_rows [3; 7; 3] = sample_rows.
Proof.
  assert (∀ key col i, sample_rows !! key = Some col → i ∈ [3; 7; 3] → length col ≤ i)
    as Hrange.
  { intros key col i Hcol Hi.
    assert (length col = 3) as ->.
    { unfold sample_rows in Hcol.
      destruct (decide (key = "location")) as [->|Hloc].
      - rewrite lookup_insert_eq in Hcol. by injection Hcol as <-.
      - rewrite lookup_insert_ne in Hcol by done.
        destruct (decide (key = "duration")) as [->|Hdur].
        + rewrite lookup_singleton_eq in Hcol. by injection Hcol as <-.
        + by rewrite lookup_singleton_ne in Hcol. }
    repeat (apply elem_of_cons in Hi as [->|Hi]; [lia|]).
    by apply elem_of_nil in Hi. }
  split; [exact Hrange|].
  apply (trim_indices_out_of_range sample_rows [3; 7; 3] Hrange).
Defined.

Lemma trim_indices_keeps_alignment_witness :
  aligned_at 3 two_flagged_rows
  ∧ dom (trim_indices two_flagged_rows [2; 0; 2; 9]) = dom two_flagged_rows
  ∧ aligned_at (3 - flagged_count [2; 0; 2; 9] 3)
      (trim_indices two_flagged_rows [2; 0; 2; 9]).
Proof.
  assert (aligned_at 3 two_flagged_rows) as Hal.
  { intros key Hkey.
    each_column Hkey; eexists; (split; [vm_compute; reflexivity|done]). }
  split; [exact Hal|].
  apply (trim_indices_keeps_alignment two_flagged_rows [2; 0; 2; 9] 3 Hal).
Defined.

Lemma column_to_date_indices_witness :
  ((column_to_date [Str "x"; Str "19870604"; Loc "a" "b"]).2 !! 0 = Some 0
   ∧ (column_to_date [Str "x"; Str "19870604"; Loc "a" "b"]).2 !! 1 = Some 2
   ∧ 0 < 1)
  ∧ 0 < 2.
Proof.
  split; [split_and!; [vm_compute; reflexivity..|lia]|].
  apply (proj1 (column_to_date_indices [Str "x"; Str "19870604"; Loc "a" "b"]) 0 1 0 2).
  - vm_compute; reflexivity.
  - vm_compute; reflexivity.
  - lia.
Defined.

Lemma transform_dates_raises_iff_witness :
  transform_dates sample_dates
    = Some (<[REPORTED := [Str "1987"; Str "1987"]]>
              (<[OCCURRED := [Str "1987"]]> sample_dates), [0])
  ∧ dom (<[REPORTED := [Str "1987"; Str "1987"]]>
           (<[OCCURRED := [Str "1987"]]> sample_dates))
    = dom sample_dates
  ∧ ∀ key, key ≠ OCCURRED → key ≠ REPORTED →
      <[REPORTED := [Str "1987"; Str "1987"]]>
        (<[OCCURRED := [Str "1987"]]> sample_dates) !! key
      = sample_dates !! key.
Proof.
  assert (transform_dates sample_dates
          = Some (<[REPORTED := [Str "1987"; Str "1987"]]>
                    (<[OCCURRED := [Str "1987"]]> sample_dates), [0]))
    as Hrun by (vm_compute; reflexivity).
  split; [exact Hrun|].
  apply (proj2 (transform_dates_raises_iff sample_dates) _ _ Hrun).
Defined.

Lemma transform_dates_lists_row_twice_witness :
  (({[ "date_occurred" := [Str "x"]; "date_reported" := [Str "y"] ]} : table)
     !! OCCURRED = Some [Str "x"]
   ∧ ({[ "date_occurred" := [Str "x"]; "date_reported" := [Str "y"] ]} : table)
       !! REPORTED = Some [Str "y"]
   ∧ (∃ c, [Str "x"] !! 0 = Some c ∧ try_date c = None)
   ∧ (∃ c, [Str "y"] !! 0 = Some c ∧ try_date c = None))
  ∧ ∃ out bad,
      transform_dates {[ "date_occurred" := [Str "x"]; "date_reported" := [Str "y"] ]}
      = Some (out, bad)
      ∧ bad = (column_to_date [Str "x"]).2 ++ (column_to_date [Str "y"]).2
      ∧ length (filter (λ j, j = 0) bad) = 2
      ∧ ¬ NoDup bad.
Proof.
  assert (({[ "date_occurred" := [Str "x"]; "date_reported" := [Str "y"] ]} : table)
            !! OCCURRED = Some [Str "x"]) as Hocc by (vm_compute; reflexivity).
  assert (({[ "date_occurred" := [Str "x"]; "date_reported" := [Str "y"] ]} : table)
            !! REPORTED = Some [Str "y"]) as Hrep by (vm_compute; reflexivity).
  assert (∃ c, [Str "x"] !! 0 = Some c ∧ try_date c = None) as H1
    by (exists (Str "x"); split; vm_compute; reflexivity).
  assert (∃ c, [Str "y"] !! 0 = Some c ∧ try_date c = None) as H2
    by (exists (Str "y"); split; vm_compute; reflexivity).
  split; [split; [exact Hocc|split; [exact Hrep|split; [exact H1|exact H2]]]|].
  apply (transform_dates_lists_row_twice _ _ _ 0 Hocc Hrep H1 H2).
Defined.

Lemma transform_dates_years_witness :
  (transform_dates sample_dates
     = Some (<[REPORTED := [Str "1987"; Str "1987"]]>
               (<[OCCURRED := [Str "1987"]]> sample_dates), [0])
   ∧ (REPORTED = OCCURRED ∨ REPORTED = REPORTED))
  ∧ ∃ col,
      <[REPORTED := [Str "1987"; Str "1987"]]>
        (<[OCCURRED := [Str "1987"]]> sample_dates) !! REPORTED
      = Some col
      ∧ Forall (λ c, is_year c = true) col.
Proof.
  assert (transform_dates sample_dates
          = Some (<[REPORTED := [Str "1987"; Str "1987"]]>
                    (<[OCCURRED := [Str "1987"]]> sample_dates), [0]))
    as Hrun by (vm_compute; reflexivity).
  split; [split; [exact Hrun|by right]|].
  apply (transform_dates_years sample_dates _ [0] REPORTED Hrun). by right.
Defined.

Lemma transform_locations_twice_witness :
  (sample_locations !! LOCATION
     = Some (Str <$> [txt "Ithaca, NY"; txt "Ithaca, Ontario"; txt "Ithaca";
                      txt "Springfield, IL, USA"])
   ∧ transform_locations sample_locations
     = Some ({[ LOCATION := [Loc "Ithaca" " NY"; Loc "Ithaca" " Ontario"; Str "Ithaca";
                             Loc "Springfield" " IL"] ]}, [1; 2; 3])
   ∧ Exists (λ row, 2 ≤ length (Py.split COMMA row))
       [txt "Ithaca, NY"; txt "Ithaca, Ontario"; txt "Ithaca";
        txt "Springfield, IL, USA"])
  ∧ transform_locations
      {[ LOCATION := [Loc "Ithaca" " NY"; Loc "Ithaca" " Ontario"; Str "Ithaca";
                      Loc "Springfield" " IL"] ]} = None.
Proof.
  assert (sample_locations !! LOCATION
          = Some (Str <$> [txt "Ithaca, NY"; txt "Ithaca, Ontario"; txt "Ithaca";
                           txt "Springfield, IL, USA"])) as Hloc
    by (vm_compute; reflexivity).
  assert (transform_locations sample_locations
          = Some ({[ LOCATION := [Loc "Ithaca" " NY"; Loc "Ithaca" " Ontario";
                                  Str "Ithaca"; Loc "Springfield" " IL"] ]}, [1; 2; 3]))
    as Hrun by (vm_compute; reflexivity).
  assert (Exists (λ row, 2 ≤ length (Py.split COMMA row))
            [txt "Ithaca, NY"; txt "Ithaca, Ontario"; txt "Ithaca";
             txt "Springfield, IL, USA"])
    as Hcomma by (apply Exists_cons_hd; vm_compute; lia).
  split; [split; [exact Hloc|split; [exact Hrun|exact Hcomma]]|].
  apply (proj1 (transform_locations_twice sample_locations _ _ _ Hloc Hrun) Hcomma).
Defined.

Lemma transform_locations_keeps_columns_witness :
  (aligned_at 3 two_flagged_rows
   ∧ transform_locations two_flagged_rows
     = Some (<[LOCATION := [Loc "Ithaca" " NY"; Str "Ithaca"; Loc "Austin" " TX"]]>
               two_flagged_rows, [1]))
  ∧ dom (<[LOCATION := [Loc "Ithaca" " NY"; Str "Ithaca"; Loc "Austin" " TX"]]>
           two_flagged_rows) = dom two_flagged_rows
  ∧ aligned_at 3
      (<[LOCATION := [Loc "Ithaca" " NY"; Str "Ithaca"; Loc "Austin" " TX"]]>
         two_flagged_rows)
  ∧ (∀ key, key ≠ LOCATION →
       <[LOCATION := [Loc "Ithaca" " NY"; Str "Ithaca"; Loc "Austin" " TX"]]>
         two_flagged_rows !! key = two_flagged_rows !! key)
  ∧ (∀ i j a b, [1] !! i = Some a → [1] !! j = Some b → i < j → a < b)
  ∧ (∀ i, i ∈ [1] → i < 3)
  ∧ aligned_at (3 - length [1])
      (trim_indices
         (<[LOCATION := [Loc "Ithaca" " NY"; Str "Ithaca"; Loc "Austin" " TX"]]>
            two_flagged_rows) [1]).
Proof.
  assert (aligned_at 3 two_flagged_rows) as Hal.
  { intros key Hkey.
    each_column Hkey; eexists; (split; [vm_compute; reflexivity|done]). }
  assert (transform_locations two_flagged_rows
          = Some (<[LOCATION := [Loc "Ithaca" " NY"; Str "Ithaca"; Loc "Austin" " TX"]]>
                    two_flagged_rows, [1])) as Hrun
    by (vm_compute; reflexivity).
  split; [split; [exact Hal|exact Hrun]|].
  apply (transform_locations_keeps_columns two_flagged_rows _ [1] 3 Hal Hrun).
Defined.

Lemma clean_locations_recognized_witness :
  (sample_dates !! LOCATION = Some (Str <$> [txt "Ithaca, NY"; txt "Ithaca, NY"])
   ∧ clean sample_dates
     = Some {[ "date_occurred" := [];
               "date_reported" := [Str "1987"];
               "location" := [Loc "Ithaca" " NY"] ]})
  ∧ ∃ col, ({[ "date_occurred" := [];
               "date_reported" := [Str "1987"];
               "location" := [Loc "Ithaca" " NY"] ]} : table) !! LOCATION = Some col
           ∧ Forall (λ c, is_us_location c = true) col.
Proof.
  assert (sample_dates !! LOCATION = Some (Str <$> [txt "Ithaca, NY"; txt "Ithaca, NY"]))
    as Hloc by (vm_compute; reflexivity).
  assert (clean sample_dates
          = Some {[ "date_occurred" := [];
                    "date_reported" := [Str "1987"];
                    "location" := [Loc "Ithaca" " NY"] ]}) as Hrun
    by (vm_compute; reflexivity).
  split; [split; [exact Hloc|exact Hrun]|].
  apply (clean_locations_recognized sample_dates _ _ Hloc Hrun).
Defined.

Lemma clean_keeps_valid_rows_witness :
  (two_flagged_rows !! OCCURRED
     = Some [Str "1987-06-04"; Str "19870605"; Str "19870606"]
   ∧ two_flagged_rows !! REPORTED
     = Some [Str "19870610"; Str "19870611"; Str "19870612"]
   ∧ two_flagged_rows !! LOCATION
     = Some (Str <$> [txt "Ithaca, NY"; txt "Ithaca"; txt "Austin, TX"])
   ∧ SHORT_DESCRIPTION ≠ OCCURRED ∧ SHORT_DESCRIPTION ≠ REPORTED
   ∧ SHORT_DESCRIPTION ≠ LOCATION
   ∧ two_flagged_rows !! SHORT_DESCRIPTION
     = Some [Str "first"; Str "second"; Str "third"])
  ∧ ∃ out removed,
      clean two_flagged_rows = Some out
      ∧ out !! SHORT_DESCRIPTION
        = Some (trim_rows removed [Str "first"; Str "second"; Str "third"])
      ∧ ∀ i, i ∈ removed ↔
          (∃ c, [Str "1987-06-04"; Str "19870605"; Str "19870606"] !! i = Some c
                ∧ try_date c = None)
          ∨ (∃ c, [Str "19870610"; Str "19870611"; Str "19870612"] !! i = Some c
                  ∧ try_date c = None)
          ∨ (∃ row, [txt "Ithaca, NY"; txt "Ithaca"; txt "Austin, TX"] !! i = Some row
                    ∧ (length (Py.split COMMA row) ≠ 2
                       ∨ ∃ second, Py.split COMMA row !! 1 = Some second
                                   ∧ Py.strip (upper second) ∉ states)).
Proof.
  assert (two_flagged_rows !! OCCURRED
          = Some [Str "1987-06-04"; Str "19870605"; Str "19870606"]) as Hocc
    by (vm_compute; reflexivity).
  assert (two_flagged_rows !! REPORTED
          = Some [Str "19870610"; Str "19870611"; Str "19870612"]) as Hrep
    by (vm_compute; reflexivity).
  assert (two_flagged_rows !! LOCATION
          = Some (Str <$> [txt "Ithaca, NY"; txt "Ithaca"; txt "Austin, TX"])) as Hloc
    by (vm_compute; reflexivity).
  assert (two_flagged_rows !! SHORT_DESCRIPTION
          = Some [Str "first"; Str "second"; Str "third"]) as Hcol
    by (vm_compute; reflexivity).
  split; [split; [exact Hocc|split; [exact Hrep|split; [exact Hloc|
            split; [done|split; [done|split; [done|exact Hcol]]]]]]|].
  apply (clean_keeps_valid_rows two_flagged_rows _ _ _ SHORT_DESCRIPTION _
           Hocc Hrep Hloc); [done..|exact Hcol].
Defined.

Lemma fix_long_description_bounds_witness :
  fix_long_description
    [txt "a"; txt "b"; txt "c"; txt "d"; txt "e"; txt "f"; [0xA0%N]; "g" ++ [0x85%N]]
    = Some [txt "a"; txt "b"; txt "c"; txt "d"; txt "e"; txt "f  g"]
  ∧ length [txt "a"; txt "b"; txt "c"; txt "d"; txt "e"; txt "f  g"]
    = length column_names
  ∧ take 5 [txt "a"; txt "b"; txt "c"; txt "d"; txt "e"; txt "f  g"]
    = take 5 [txt "a"; txt "b"; txt "c"; txt "d"; txt "e"; txt "f"; [0xA0%N];
              "g" ++ [0x85%N]]
  ∧ [txt "a"; txt "b"; txt "c"; txt "d"; txt "e"; txt "f  g"] !! 5
    = Some (Py.join "  " (filter (λ t, t ≠ [])
              (Py.strip <$> drop 5 [txt "a"; txt "b"; txt "c"; txt "d"; txt "e";
                                    txt "f"; [0xA0%N]; "g" ++ [0x85%N]]))).
Proof.
  assert (fix_long_description
            [txt "a"; txt "b"; txt "c"; txt "d"; txt "e"; txt "f"; [0xA0%N];
             "g" ++ [0x85%N]]
          = Some [txt "a"; txt "b"; txt "c"; txt "d"; txt "e"; txt "f  g"]) as Hrun
    by (vm_compute; reflexivity).
  split; [exact Hrun|].
  apply (proj2 (fix_long_description_bounds
                  [txt "a"; txt "b"; txt "c"; txt "d"; txt "e"; txt "f"; [0xA0%N];
                   "g" ++ [0x85%N]]) _ Hrun).
Defined.

Lemma load_data_clean_log_witness :
  Forall accepted_line (replicate 2 tabbed_sighting)
  ∧ aligned_at (length (replicate 2 tabbed_sighting))
      (load_data (replicate 2 tabbed_sighting)).1.
Proof.
  assert (Forall accepted_line (replicate 2 tabbed_sighting)) as Hacc.
  { apply Forall_replicate. unfold accepted_line. vm_compute. lia. }
  split; [exact Hacc|].
  apply (proj2 (load_data_clean_log (replicate 2 tabbed_sighting)) Hacc).
Defined.

Lemma load_data_plain_rows_witness :
  Forall plain_row sample_plain_rows
  ∧ (load_data (tabbed <$> sample_plain_rows)).2 = []
  ∧ ∀ j key, column_names !! j = Some key →
      ∃ fields,
        omap (.!! j) sample_plain_rows = fields
        ∧ length fields = length sample_plain_rows
        ∧ (load_data (tabbed <$> sample_plain_rows)).1 !! key = Some (Str <$> fields).
Proof.
  assert (Forall plain_row sample_plain_rows) as Hrows.
  { repeat (apply Forall_cons; split;
              [split; [reflexivity|apply (bool_decide_unpack _); by vm_compute]|]).
    constructor. }
  split; [exact Hrows|]. apply (load_data_plain_rows sample_plain_rows Hrows).
Defined.

Lemma clean_aligned_when_dates_valid_witness :
  (aligned_at 3 valid_dates_rows
   ∧ valid_dates_rows !! OCCURRED
     = Some [Str "19870604"; Str "19870605"; Str "19870606"]
   ∧ valid_dates_rows !! REPORTED
     = Some [Str "19870610"; Str "19870611"; Str "19870612"]
   ∧ valid_dates_rows !! LOCATION
     = Some (Str <$> [txt "Ithaca, NY"; txt "Ithaca"; txt "Austin, TX"])
   ∧ Forall (λ c, is_Some (try_date c))
       [Str "19870604"; Str "19870605"; Str "19870606"]
   ∧ Forall (λ c, is_Some (try_date c))
       [Str "19870610"; Str "19870611"; Str "19870612"])
  ∧ ∃ out,
      clean valid_dates_rows = Some out
      ∧ out = trim_indices
                (<[LOCATION := row_value
                               <$> [txt "Ithaca, NY"; txt "Ithaca"; txt "Austin, TX"]]>
                   (<[REPORTED := omap try_date
                                    [Str "19870610"; Str "19870611"; Str "19870612"]]>
                      (<[OCCURRED := omap try_date
                                       [Str "19870604"; Str "19870605"; Str "19870606"]]>
                         valid_dates_rows)))
                (flagged_from row_flagged 0
                   [txt "Ithaca, NY"; txt "Ithaca"; txt "Austin, TX"])
      ∧ aligned_at
          (3 - length (flagged_from row_flagged 0
                         [txt "Ithaca, NY"; txt "Ithaca"; txt "Austin, TX"]))
          out.
Proof.
  assert (aligned_at 3 valid_dates_rows) as Hal.
  { intros key Hkey.
    each_column Hkey; eexists; (split; [vm_compute; reflexivity|done]). }
  assert (valid_dates_rows !! OCCURRED
          = Some [Str "19870604"; Str "19870605"; Str "19870606"]) as Hocc
    by (vm_compute; reflexivity).
  assert (valid_dates_rows !! REPORTED
          = Some [Str "19870610"; Str "19870611"; Str "19870612"]) as Hrep
    by (vm_compute; reflexivity).
  assert (valid_dates_rows !! LOCATION
          = Some (Str <$> [txt "Ithaca, NY"; txt "Ithaca"; txt "Austin, TX"])) as Hloc
    by (vm_compute; reflexivity).
  assert (Forall (λ c, is_Some (try_date c))
            [Str "19870604"; Str "19870605"; Str "19870606"]) as Hocc_ok.
  { repeat (apply Forall_cons; split; [eexists; vm_compute; reflexivity|]). constructor. }
  assert (Forall (λ c, is_Some (try_date c))
            [Str "19870610"; Str "19870611"; Str "19870612"]) as Hrep_ok.
  { repeat (apply Forall_cons; split; [eexists; vm_compute; reflexivity|]). constructor. }
  split.
  - split; [exact Hal|]. split; [exact Hocc|]. split; [exact Hrep|].
    split; [exact Hloc|]. split; [exact Hocc_ok|exact Hrep_ok].
  - apply (clean_aligned_when_dates_valid valid_dates_rows _ _ _ 3
             Hal Hocc Hrep Hloc Hocc_ok Hrep_ok).
Defined.

Lemma load_data_no_tab_witness :
  (LONG_DESCRIPTION ∈ column_names
   ∧ (load_data [tabbed_sighting]).1 !! LONG_DESCRIPTION
     = Some [Str "lights in the sky  very bright  moving slowly"]
   ∧ Str "lights in the sky  very bright  moving slowly"
     ∈ [Str "lights in the sky  very bright  moving slowly"])
  ∧ ∃ s, Str "lights in the sky  very bright  moving slowly" = Str s
         ∧ free_of TAB s = true.
Proof.
  assert (LONG_DESCRIPTION ∈ column_names) as Hkey
    by (by apply (list_elem_of_lookup_2 column_names 5)).
  assert ((load_data [tabbed_sighting]).1 !! LONG_DESCRIPTION
          = Some [Str "lights in the sky  very bright  moving slowly"]) as Hcol
    by (vm_compute; reflexivity).
  assert (Str "lights in the sky  very bright  moving slowly"
          ∈ [Str "lights in the sky  very bright  moving slowly"]) as Hc
    by (by left).
  split; [split; [exact Hkey|split; [exact Hcol|exact Hc]]|].
  apply (load_data_no_tab [tabbed_sighting] LONG_DESCRIPTION _ _ Hkey Hcol Hc).
Defined.
